(** * PDFViewer: area selection, text matching and overlay redraw

    A shallow embedding of the marking subsystem of the PDF viewer control:

    - [AreaSelectionTool]  src/PDFViewerComponent/component/Marking/AreaSelectionTool.tsx
                           (the first component of that file: the gesture handlers,
                           [extractTextFromArea], [captureScreenshot]);
    - [SelectedAreasList]  src/PDFViewerComponent/component/Marking/SelectedAreasList.tsx
                           (the list handlers);
    - [PDFViewer]          src/PDFViewerComponent/index.ts (the [PDFViewer] component:
                           area list state, overlay redraw, overlay mounting).

    Conventions of the embedding.

    - A JavaScript number is an exact rational ([Q]): [+ - * /] are the field
      operations, comparisons are exact.  Rounding, NaN and the infinities of
      IEEE doubles are outside the model; in particular [x / 0] is [0] here.
    - A string is a [string] whose characters stand for code units below 256.
    - [await e] inside [try { ... } catch] is sequencing in the [completion]
      monad; a handler runs to completion before the next event is taken.
    - React state is an explicit record; a [useState] setter is a record update.
    - Host facilities that are not code of the repository ([Math.sqrt], the
      2D canvas context, [Date.now], [Math.random]) are fields of [Host];
      the rendering library's objects are records of their methods ([PdfJs]).
    - [console.error] output is not recorded. *)

From Stdlib Require Import QArith Qabs Qminmax Qfield ZArith List String Ascii Bool.
From Stdlib Require Import DecimalString Lia.
From Stdlib Require Import Qround Lqa DecimalPos.
Import ListNotations.

Set Implicit Arguments.

(** ** JavaScript values *)

Module JS.

Definition number := Q.

(** [a > b] and [a < b] on numbers. *)
Definition gt (a b : number) : bool := negb (Qle_bool a b).
Definition lt (a b : number) : bool := negb (Qle_bool b a).

Definition Math_min (a b : number) : number := Qmin a b.
Definition Math_max (a b : number) : number := Qmax a b.
Definition Math_abs (a : number) : number := Qabs a.

(** Outcome of an expression that may throw (or of an awaited promise that may
    reject). *)
Inductive completion (A : Type) : Type :=
| Normal (a : A)
| Throw (reason : string).
Arguments Normal {A} a.
Arguments Throw {A} reason.

Definition bind {A B} (c : completion A) (k : A -> completion B) : completion B :=
  match c with
  | Normal a => k a
  | Throw r => Throw r
  end.

(** [s.length] as a number. *)
Definition length (s : string) : number := inject_Z (Z.of_nat (String.length s)).

(** WhiteSpace and LineTerminator code units below 256: TAB, LF, VT, FF, CR,
    SP, NBSP. *)
Definition isWhiteSpace (c : ascii) : bool :=
  let n := nat_of_ascii c in
  (Nat.eqb n 9 || Nat.eqb n 10 || Nat.eqb n 11 || Nat.eqb n 12 || Nat.eqb n 13
   || Nat.eqb n 32 || Nat.eqb n 160)%bool.

Fixpoint trimStart (s : string) : string :=
  match s with
  | EmptyString => EmptyString
  | String c s' => if isWhiteSpace c then trimStart s' else s
  end.

Definition reverse (s : string) : string :=
  string_of_list_ascii (rev (list_ascii_of_string s)).

Definition trimEnd (s : string) : string := reverse (trimStart (reverse s)).

(** [s.trim()] *)
Definition trim (s : string) : string := trimEnd (trimStart s).

(** [a || b] on strings: the empty string is falsy. *)
Definition or_else (a b : string) : string :=
  match a with
  | EmptyString => b
  | _ => a
  end.

(** Decimal rendering of an integer inside a template literal. *)
Definition toString (n : Z) : string := NilZero.string_of_int (Z.to_int n).

End JS.

Declare Scope js_scope.
Delimit Scope js_scope with js.
Notation "x <- c ;; k" := (JS.bind c (fun x => k))
  (at level 61, c at next level, right associativity) : js_scope.

(** ** The rendering library, as the component uses it *)

Module PdfJs.
Import JS.

(** [{ width, height }] of a viewport. *)
Record Viewport := mkViewport { vp_width : number; vp_height : number }.

(** The argument of [getViewport]; an omitted or [undefined] [rotation] is
    [None] (the library then takes the page's own rotation). *)
Record ViewportParams := mkParams { arg_scale : number; arg_rotation : option number }.

(** [item.transform], a six-element array: [tr0] is [transform[0]] etc. *)
Record Transform := mkTransform
  { tr0 : number; tr1 : number; tr2 : number; tr3 : number; tr4 : number; tr5 : number }.

Record TextItem := mkItem { str : string; transform : Transform }.

Record TextContent := mkContent { items : list TextItem }.

Record PDFPage := mkPage
  { getViewport : ViewportParams -> Viewport;
    getTextContent : completion TextContent }.

Record PDFDocument := mkDocument
  { getPage : Z -> completion PDFPage;
    doc_numPages : Z }.

End PdfJs.

(** ** Host facilities *)

Record Host := mkHost
  { (** [Math.sqrt] *)
    Math_sqrt : JS.number -> JS.number;
    (** whether [document.createElement('canvas').getContext('2d')] is non-null *)
    context2d : bool;
    (** [Date.now()] when the id is built, and when the timestamp is taken *)
    Date_now_id : Z;
    Date_now_timestamp : Z;
    (** [Math.random().toString(36).substr(2, 9)] *)
    random_suffix : string }.

(** A [{ x, y, width, height }] object. *)
Record Rect := mkRect
  { rect_x : JS.number; rect_y : JS.number; rect_width : JS.number; rect_height : JS.number }.

(** The page canvas: backing-store size, [getBoundingClientRect()], and the PNG
    data URL obtained by [drawImage]-ing a source rectangle of its bitmap into a
    fresh canvas and calling [toDataURL('image/png')]. *)
Record Canvas := mkCanvas
  { cv_width : JS.number;
    cv_height : JS.number;
    cv_left : JS.number;
    cv_top : JS.number;
    cv_clientWidth : JS.number;
    cv_clientHeight : JS.number;
    cv_toDataURL : Rect -> string }.


(** ** AreaSelectionTool.tsx *)

Module AreaSelectionTool.
Import JS PdfJs.
Local Open Scope Q_scope.
Local Open Scope js_scope.

(** [{ x, y }] of [startPos] and [currentPos]. *)
Record Point := mkPoint { pt_x : number; pt_y : number }.

(** The argument of [extractTextFromArea]: [{ x, y, width, height, page }]. *)
Record TextArea := mkTextArea
  { area_x : number; area_y : number; area_width : number; area_height : number;
    area_page : Z }.

(** [SelectedArea.position]; the four [canvas*] fields are optional. *)
Record Position := mkPosition
  { pdfX : number; pdfY : number; pdfWidth : number; pdfHeight : number;
    page : Z;
    canvasX : option number; canvasY : option number;
    canvasWidth : option number; canvasHeight : option number }.

Record SelectedArea := mkSelectedArea
  { id : string;
    text : string;
    screenshot : string;
    position : Position;
    timestamp : Z }.

(** The props the handlers read.  [onAreaSelected] is the [emitted] field of
    [Outcome]; [rotation] is [None] when the parent passes no rotation. *)
Record Props := mkProps
  { canvasRef : option Canvas;
    pdfDoc : option PDFDocument;
    currentPage : Z;
    scale : number;
    rotation : option number;
    isSelectionMode : bool }.

(** The three [useState] cells of the component. *)
Record State := mkState
  { isSelecting : bool;
    startPos : option Point;
    currentPos : option Point }.

(** [setIsSelecting(false); setStartPos(null); setCurrentPos(null)] *)
Definition idle : State := mkState false None None.

Definition noTextDetected : string := "No text detected in selected area".
Definition errorExtractingText : string := "Error extracting text".

Definition getCanvasCoordinates (props : Props) (clientX clientY : number) : Point :=
  match canvasRef props with
  | None => mkPoint 0 0
  | Some canvas =>
      let x := (clientX - cv_left canvas) * (cv_width canvas / cv_clientWidth canvas) in
      let y := (clientY - cv_top canvas) * (cv_height canvas / cv_clientHeight canvas) in
      mkPoint x y
  end.

Definition handleMouseDown (props : Props) (st : State) (clientX clientY : number) : State :=
  match isSelectionMode props, canvasRef props with
  | true, Some _ =>
      let coords := getCanvasCoordinates props clientX clientY in
      mkState true (Some coords) (Some coords)
  | _, _ => st
  end.

Definition handleMouseMove (props : Props) (st : State) (clientX clientY : number) : State :=
  match isSelecting st, startPos st with
  | true, Some _ =>
      let coords := getCanvasCoordinates props clientX clientY in
      mkState (isSelecting st) (startPos st) (Some coords)
  | _, _ => st
  end.

(** The body of [textContent.items.forEach]: one text item against the area,
    updating the accumulator [extractedText]. *)
Definition forEachItem (host : Host) (area : TextArea) (extractedText : string)
    (item : TextItem) : string :=
  let transform := transform item in
  let textX := tr4 transform in
  let textY := tr5 transform in
  let fontSize := Math_sqrt host (tr0 transform * tr0 transform + tr1 transform * tr1 transform) in
  let textWidth := JS.length (str item) * fontSize * 0.5 in
  let textHeight := fontSize in
  let textLeft := textX in
  let textRight := textX + textWidth in
  let textBottom := textY in
  let textTop := textY + textHeight in
  let areaLeft := area_x area in
  let areaRight := area_x area + area_width area in
  let areaBottom := area_y area in
  let areaTop := area_y area + area_height area in
  let horizontalOverlap := gt textRight areaLeft && lt textLeft areaRight in
  let verticalOverlap := gt textTop areaBottom && lt textBottom areaTop in
  if horizontalOverlap && verticalOverlap
  then (extractedText ++ (str item ++ " "))%string
  else extractedText.

(** [extractTextFromArea]: the [try] block is the [completion] computation, the
    [catch] its [Throw] branch.  The unused [pdfViewport] binding is dropped. *)
Definition extractTextFromArea (host : Host) (pdfDoc : option PDFDocument)
    (area : TextArea) : string :=
  match pdfDoc with
  | None => ""%string
  | Some doc =>
      match (page <- getPage doc (area_page area) ;;
             textContent <- getTextContent page ;;
             let extractedText := fold_left (forEachItem host area) (items textContent) ""%string in
             Normal (or_else (trim extractedText) noTextDetected))
      with
      | Normal result => result
      | Throw _ => errorExtractingText
      end
  end.

Definition captureScreenshot (host : Host) (props : Props) (area : Rect) : string :=
  match canvasRef props with
  | None => ""%string
  | Some canvas =>
      if negb (context2d host) then ""%string
      else cv_toDataURL canvas area
  end.

(** The drag's bounding box in canvas pixels (the four [const canvas*] of
    [handleMouseUp]). *)
Definition dragRect (startPos currentPos : Point) : Rect :=
  let canvasX := Math_min (pt_x startPos) (pt_x currentPos) in
  let canvasY := Math_min (pt_y startPos) (pt_y currentPos) in
  let canvasWidth := Math_abs (pt_x currentPos - pt_x startPos) in
  let canvasHeight := Math_abs (pt_y currentPos - pt_y startPos) in
  mkRect canvasX canvasY canvasWidth canvasHeight.

(** What one call of [handleMouseUp] does: the next component state and the
    area handed to [onAreaSelected], if any. *)
Record Outcome := mkOutcome
  { next : State;
    emitted : option SelectedArea }.

Definition handleMouseUp (host : Host) (props : Props) (st : State) : Outcome :=
  match isSelecting st, startPos st, currentPos st, canvasRef props with
  | true, Some startPos, Some currentPos, Some canvas =>
      let canvasX := Math_min (pt_x startPos) (pt_x currentPos) in
      let canvasY := Math_min (pt_y startPos) (pt_y currentPos) in
      let canvasWidth := Math_abs (pt_x currentPos - pt_x startPos) in
      let canvasHeight := Math_abs (pt_y currentPos - pt_y startPos) in
      if gt canvasWidth 10 && gt canvasHeight 10 then
        let screenshot :=
          captureScreenshot host props (mkRect canvasX canvasY canvasWidth canvasHeight) in
        match pdfDoc props with
        | None => mkOutcome st None
        | Some doc =>
            match (page <- getPage doc (currentPage props) ;;
                   let pdfViewport := getViewport page (mkParams 1.0 None) in
                   let canvasViewport :=
                     getViewport page (mkParams (scale props) (rotation props)) in
                   let pdfX := (canvasX / vp_width canvasViewport) * vp_width pdfViewport in
                   let pdfY := (canvasY / vp_height canvasViewport) * vp_height pdfViewport in
                   let pdfWidth := (canvasWidth / vp_width canvasViewport) * vp_width pdfViewport in
                   let pdfHeight :=
                     (canvasHeight / vp_height canvasViewport) * vp_height pdfViewport in
                   let text :=
                     extractTextFromArea host (pdfDoc props)
                       (mkTextArea pdfX (vp_height pdfViewport - pdfY - pdfHeight)
                                   pdfWidth pdfHeight (currentPage props)) in
                   Normal
                     (mkSelectedArea
                        ("area-" ++ toString (Date_now_id host) ++ "-" ++ random_suffix host)
                        (or_else text noTextDetected)
                        screenshot
                        (mkPosition pdfX pdfY pdfWidth pdfHeight (currentPage props)
                                    (Some canvasX) (Some canvasY)
                                    (Some canvasWidth) (Some canvasHeight))
                        (Date_now_timestamp host)))
            with
            | Normal selectedArea => mkOutcome idle (Some selectedArea)
            | Throw _ => mkOutcome idle None
            end
        end
      else mkOutcome idle None
  | _, _, _, _ => mkOutcome idle None
  end.

End AreaSelectionTool.


(** ** SelectedAreasList.tsx *)

Module SelectedAreasList.
Import AreaSelectionTool.

Section Handlers.

(** The state of the parent, which the callback props update. *)
Variable S : Type.

Record Props := mkProps
  { selectedAreas : list SelectedArea;
    onAreaHighlight : option SelectedArea -> S -> S;
    onAreaRemove : string -> S -> S;
    onClearAll : S -> S;
    highlightedArea : option SelectedArea }.

(** [highlightedArea?.id === areaId] *)
Definition highlightedIs (highlightedArea : option SelectedArea) (areaId : string) : bool :=
  match highlightedArea with
  | Some area => String.eqb (id area) areaId
  | None => false
  end.

Definition handleAreaClick (props : Props) (area : SelectedArea) (s : S) : S :=
  onAreaHighlight props (Some area) s.

Definition handleAreaRemove (props : Props) (areaId : string) (s : S) : S :=
  let s := onAreaRemove props areaId s in
  if highlightedIs (highlightedArea props) areaId
  then onAreaHighlight props None s
  else s.

Definition handleClearAll (props : Props) (s : S) : S :=
  let s := onClearAll props s in
  onAreaHighlight props None s.

End Handlers.

End SelectedAreasList.

(** ** index.ts: the PDFViewer component *)

Module PDFViewer.
Import JS PdfJs.
Import AreaSelectionTool(SelectedArea, id, position, page, pdfX, pdfY, pdfWidth, pdfHeight).
Local Open Scope Q_scope.

(** The component's state.  [file] is the chosen file's name; [canvas] and
    [selectionContext2d] describe the two canvas elements when they are
    mounted; [tool] is the state of the mounted [AreaSelectionTool]. *)
Record State := mkState
  { numPages : Z;
    pageNumber : Z;
    scale : number;
    loading : bool;
    error : string;
    file : option string;
    pdfDoc : option PDFDocument;
    selectedAreas : list SelectedArea;
    isSelectionMode : bool;
    highlightedArea : option SelectedArea;
    canvas : Canvas;
    selectionContext2d : bool;
    tool : AreaSelectionTool.State }.

Definition setSelectedAreas (f : list SelectedArea -> list SelectedArea) (v : State) : State :=
  mkState (numPages v) (pageNumber v) (scale v) (loading v) (error v) (file v) (pdfDoc v)
          (f (selectedAreas v)) (isSelectionMode v) (highlightedArea v)
          (canvas v) (selectionContext2d v) (tool v).

Definition setIsSelectionMode (enabled : bool) (v : State) : State :=
  mkState (numPages v) (pageNumber v) (scale v) (loading v) (error v) (file v) (pdfDoc v)
          (selectedAreas v) enabled (highlightedArea v)
          (canvas v) (selectionContext2d v) (tool v).

Definition setHighlightedArea (area : option SelectedArea) (v : State) : State :=
  mkState (numPages v) (pageNumber v) (scale v) (loading v) (error v) (file v) (pdfDoc v)
          (selectedAreas v) (isSelectionMode v) area
          (canvas v) (selectionContext2d v) (tool v).

Definition setTool (t : AreaSelectionTool.State) (v : State) : State :=
  mkState (numPages v) (pageNumber v) (scale v) (loading v) (error v) (file v) (pdfDoc v)
          (selectedAreas v) (isSelectionMode v) (highlightedArea v)
          (canvas v) (selectionContext2d v) t.

Definition setPageNumber (f : Z -> Z) (v : State) : State :=
  mkState (numPages v) (f (pageNumber v)) (scale v) (loading v) (error v) (file v) (pdfDoc v)
          (selectedAreas v) (isSelectionMode v) (highlightedArea v)
          (canvas v) (selectionContext2d v) (tool v).

Definition setScale (f : number -> number) (v : State) : State :=
  mkState (numPages v) (pageNumber v) (f (scale v)) (loading v) (error v) (file v) (pdfDoc v)
          (selectedAreas v) (isSelectionMode v) (highlightedArea v)
          (canvas v) (selectionContext2d v) (tool v).

(** [handleFileChange] for a PDF file followed by [loadPDF] (with the library
    loaded), where [loaded] is the outcome of [getDocument(...).promise]. *)
Definition handleFileChange (name : string) (loaded : completion PDFDocument) (v : State)
    : State :=
  match loaded with
  | Normal pdf =>
      mkState (doc_numPages pdf) 1 (scale v) false "" (Some name) (Some pdf)
              (selectedAreas v) (isSelectionMode v) (highlightedArea v)
              (canvas v) (selectionContext2d v) (tool v)
  | Throw _ =>
      mkState (numPages v) (pageNumber v) (scale v) false
              "Failed to load PDF file. Please ensure it's a valid PDF." (Some name) (pdfDoc v)
              (selectedAreas v) (isSelectionMode v) (highlightedArea v)
              (canvas v) (selectionContext2d v) (tool v)
  end.

Definition handleZoomIn : State -> State := setScale (fun prev => Math_min (prev + 0.2) 3.0).
Definition handleZoomOut : State -> State := setScale (fun prev => Math_max (prev - 0.2) 0.3).

Definition goToPreviousPage (v : State) : State :=
  if Z.ltb 1 (pageNumber v) then setPageNumber (fun prev => Z.max (prev - 1) 1) v else v.

Definition goToNextPage (v : State) : State :=
  if Z.ltb (pageNumber v) (numPages v)
  then setPageNumber (fun prev => Z.min (prev + 1) (numPages v)) v
  else v.

(** *** Marking related handlers *)

Definition handleAreaSelected (area : SelectedArea) : State -> State :=
  setSelectedAreas (fun prev => prev ++ [area]).

Definition handleAreaHighlight (area : option SelectedArea) : State -> State :=
  setHighlightedArea area.

Definition handleAreaRemove (areaId : string) : State -> State :=
  setSelectedAreas (fun prev => filter (fun area => negb (String.eqb (id area) areaId)) prev).

Definition handleClearAllAreas : State -> State :=
  setSelectedAreas (fun _ => []).

(** *** What is mounted *)

(** [file] is set: the toolbar (with the tool's button) and the area list. *)
Definition toolbarMounted (v : State) : bool :=
  match file v with Some _ => true | None => false end.

(** [!loading && !error && pdfDoc] inside the [file] branch: the page canvas
    and the selection canvas. *)
Definition documentMounted (v : State) : bool :=
  toolbarMounted v && negb (loading v)
  && match error v with EmptyString => true | _ => false end
  && match pdfDoc v with Some _ => true | None => false end.

(** [{isSelectionMode && <CanvasOverlay ... />}] *)
Definition overlayMounted (v : State) : bool :=
  documentMounted v && isSelectionMode v.

Definition canvasRef (v : State) : option Canvas :=
  if documentMounted v then Some (canvas v) else None.

(** [selectionCanvasRef.current], as whether its [getContext('2d')] is non-null. *)
Definition selectionCanvasRef (v : State) : option bool :=
  if documentMounted v then Some (selectionContext2d v) else None.

(** The props given to [<AreaSelectionTool>]: no [rotation] is passed. *)
Definition toolProps (v : State) : AreaSelectionTool.Props :=
  AreaSelectionTool.mkProps (canvasRef v) (pdfDoc v) (pageNumber v) (scale v) None
                            (isSelectionMode v).

(** The props given to [<SelectedAreasList>]. *)
Definition listProps (v : State) : SelectedAreasList.Props State :=
  SelectedAreasList.mkProps (selectedAreas v) handleAreaHighlight handleAreaRemove
                            handleClearAllAreas (highlightedArea v).

(** *** Overlay redraw (the effect around [drawSelectionBoxes]) *)

(** The calls made on the selection canvas and its 2D context. *)
Inductive CanvasOp : Type :=
| SetWidth (w : number)
| SetHeight (h : number)
| ClearRect (x y w h : number)
| SetStrokeStyle (style : string)
| SetLineWidth (w : number)
| SetLineDash (segments : list number)
| StrokeRect (x y w h : number)
| SetFillStyle (style : string)
| FillRect (x y w h : number).

(** The stored PDF rectangle of an area in canvas pixels under the two viewports
    (the four [const canvas*] of the [forEach] body). *)
Definition areaRect (pdfViewport currentViewport : Viewport) (area : SelectedArea) : Rect :=
  let canvasX := (pdfX (position area) / vp_width pdfViewport) * vp_width currentViewport in
  let canvasY := (pdfY (position area) / vp_height pdfViewport) * vp_height currentViewport in
  let canvasWidth :=
    (pdfWidth (position area) / vp_width pdfViewport) * vp_width currentViewport in
  let canvasHeight :=
    (pdfHeight (position area) / vp_height pdfViewport) * vp_height currentViewport in
  mkRect canvasX canvasY canvasWidth canvasHeight.

(** The body of [currentPageAreas.forEach]. *)
Definition forEachArea (pdfViewport currentViewport : Viewport)
    (highlightedArea : option SelectedArea) (area : SelectedArea) : list CanvasOp :=
  let canvasX := (pdfX (position area) / vp_width pdfViewport) * vp_width currentViewport in
  let canvasY := (pdfY (position area) / vp_height pdfViewport) * vp_height currentViewport in
  let canvasWidth :=
    (pdfWidth (position area) / vp_width pdfViewport) * vp_width currentViewport in
  let canvasHeight :=
    (pdfHeight (position area) / vp_height pdfViewport) * vp_height currentViewport in
  let isHighlighted := SelectedAreasList.highlightedIs highlightedArea (id area) in
  [ SetStrokeStyle (if isHighlighted then "#0078d4" else "#0078d4");
    SetLineWidth (if isHighlighted then 3 else 2);
    SetLineDash (if isHighlighted then [5; 5] else []);
    StrokeRect canvasX canvasY canvasWidth canvasHeight;
    SetFillStyle (if isHighlighted then "rgba(0, 120, 212, 0.3)" else "rgba(0, 120, 212, 0.1)");
    FillRect canvasX canvasY canvasWidth canvasHeight ].

(** One run of the redraw effect: the guards before [drawSelectionBoxes], then
    its [try] block; the [catch] draws nothing more. *)
Definition drawSelectionBoxes (v : State) : list CanvasOp :=
  match canvasRef v, selectionCanvasRef v, pdfDoc v with
  | Some mainCanvas, Some context2d, Some doc =>
      if negb context2d then []
      else
        match getPage doc (pageNumber v) with
        | Throw _ => []
        | Normal page =>
            let pdfViewport := getViewport page (mkParams 1.0 None) in
            let currentViewport := getViewport page (mkParams (scale v) None) in
            let currentPageAreas :=
              filter (fun area => Z.eqb (AreaSelectionTool.page (position area)) (pageNumber v))
                     (selectedAreas v) in
            [ SetWidth (cv_width mainCanvas);
              SetHeight (cv_height mainCanvas);
              ClearRect 0 0 (cv_width mainCanvas) (cv_height mainCanvas) ]
            ++ match currentPageAreas with
               | [] => []
               | _ => flat_map (forEachArea pdfViewport currentViewport (highlightedArea v))
                               currentPageAreas
               end
        end
  | _, _, _ => []
  end.

(** The rectangles stroked by a sequence of canvas calls, in order. *)
Fixpoint strokedRects (ops : list CanvasOp) : list Rect :=
  match ops with
  | [] => []
  | StrokeRect x y w h :: ops' => mkRect x y w h :: strokedRects ops'
  | _ :: ops' => strokedRects ops'
  end.

(** The rectangles filled by a sequence of canvas calls, in order. *)
Fixpoint filledRects (ops : list CanvasOp) : list Rect :=
  match ops with
  | [] => []
  | FillRect x y w h :: ops' => mkRect x y w h :: filledRects ops'
  | _ :: ops' => filledRects ops'
  end.

(** *** User events *)

Inductive Event : Type :=
(** the file input: a PDF file is chosen and loads, or fails to load *)
| ChooseFile (name : string) (loaded : completion PDFDocument)
(** toolbar: page and zoom buttons *)
| PrevClick
| NextClick
| ZoomInClick
| ZoomOutClick
(** the tool's toolbar button: [toggleSelectionMode] *)
| ToggleSelectionMode
(** pointer events on the selection overlay *)
| MouseDown (clientX clientY : number)
| MouseMove (clientX clientY : number)
| MouseUp
| MouseLeave
(** the area list: click on item [n], its remove button, the clear-all button *)
| AreaClick (n : nat)
| AreaRemoveClick (n : nat)
| ClearAllClick.

(** Delivery of one event: the handler of the element that receives it runs, if
    that element is mounted.  The second component is the area passed to
    [onAreaSelected] by this event, if any. *)
Definition step (host : Host) (v : State) (e : Event) : State * option SelectedArea :=
  match e with
  | ChooseFile name loaded => (handleFileChange name loaded v, None)
  | PrevClick =>
      if toolbarMounted v && negb (Z.leb (pageNumber v) 1)
      then (goToPreviousPage v, None) else (v, None)
  | NextClick =>
      if toolbarMounted v && negb (Z.leb (numPages v) (pageNumber v))
      then (goToNextPage v, None) else (v, None)
  | ZoomInClick =>
      if toolbarMounted v && negb (Qle_bool 3.0 (scale v))
      then (handleZoomIn v, None) else (v, None)
  | ZoomOutClick =>
      if toolbarMounted v && negb (Qle_bool (scale v) 0.3)
      then (handleZoomOut v, None) else (v, None)
  | ToggleSelectionMode =>
      if toolbarMounted v
      then (setIsSelectionMode (negb (isSelectionMode v)) v, None)
      else (v, None)
  | MouseDown clientX clientY =>
      if overlayMounted v
      then (setTool (AreaSelectionTool.handleMouseDown (toolProps v) (tool v) clientX clientY) v,
            None)
      else (v, None)
  | MouseMove clientX clientY =>
      if overlayMounted v
      then (setTool (AreaSelectionTool.handleMouseMove (toolProps v) (tool v) clientX clientY) v,
            None)
      else (v, None)
  | MouseUp | MouseLeave =>
      if overlayMounted v
      then
        let outcome := AreaSelectionTool.handleMouseUp host (toolProps v) (tool v) in
        let v := setTool (AreaSelectionTool.next outcome) v in
        match AreaSelectionTool.emitted outcome with
        | Some area => (handleAreaSelected area v, Some area)
        | None => (v, None)
        end
      else (v, None)
  | AreaClick n =>
      match toolbarMounted v, nth_error (selectedAreas v) n with
      | true, Some area => (SelectedAreasList.handleAreaClick (listProps v) area v, None)
      | _, _ => (v, None)
      end
  | AreaRemoveClick n =>
      match toolbarMounted v, nth_error (selectedAreas v) n with
      | true, Some area => (SelectedAreasList.handleAreaRemove (listProps v) (id area) v, None)
      | _, _ => (v, None)
      end
  | ClearAllClick =>
      match toolbarMounted v, selectedAreas v with
      | true, _ :: _ => (SelectedAreasList.handleClearAll (listProps v) v, None)
      | _, _ => (v, None)
      end
  end.

(** A sequence of events, each with the host as it is when the event is
    handled (clock and random source move on), and the areas emitted along the
    way. *)
Fixpoint run (v : State) (trace : list (Host * Event)) : State * list SelectedArea :=
  match trace with
  | [] => (v, [])
  | (host, e) :: trace' =>
      let '(v1, out) := step host v e in
      let '(v2, outs) := run v1 trace' in
      (v2, match out with Some area => area :: outs | None => outs end)
  end.

(** The state of a freshly mounted component, with the canvas elements [c]. *)
Definition initial (c : Canvas) (selectionContext2d : bool) : State :=
  mkState 0 1 1.0 false "" None None [] false None c selectionContext2d AreaSelectionTool.idle.

End PDFViewer.


(** ** Notions used in the statements *)

Module Notions.
Import JS PdfJs AreaSelectionTool.
Local Open Scope Q_scope.

(** Both sides of a canvas-pixel rectangle exceed ten pixels. *)
Definition largeEnough (r : Rect) : Prop := 10 < rect_width r /\ 10 < rect_height r.

(** Two rectangles denote the same numbers. *)
Definition sameRect (r1 r2 : Rect) : Prop :=
  rect_x r1 == rect_x r2 /\ rect_y r1 == rect_y r2 /\
  rect_width r1 == rect_width r2 /\ rect_height r1 == rect_height r2.

(** The area built by the [try] block of [handleMouseUp] from the page. *)
Definition builtArea (host : Host) (props : Props) (doc : PDFDocument) (sp cp : Point)
    (pg : PDFPage) : SelectedArea :=
  let r := dragRect sp cp in
  let pdfViewport := getViewport pg (mkParams 1.0 None) in
  let canvasViewport := getViewport pg (mkParams (scale props) (rotation props)) in
  let pdfX := (rect_x r / vp_width canvasViewport) * vp_width pdfViewport in
  let pdfY := (rect_y r / vp_height canvasViewport) * vp_height pdfViewport in
  let pdfWidth := (rect_width r / vp_width canvasViewport) * vp_width pdfViewport in
  let pdfHeight := (rect_height r / vp_height canvasViewport) * vp_height pdfViewport in
  mkSelectedArea
    ("area-" ++ toString (Date_now_id host) ++ "-" ++ random_suffix host)
    (or_else
       (extractTextFromArea host (Some doc)
          (mkTextArea pdfX (vp_height pdfViewport - pdfY - pdfHeight) pdfWidth pdfHeight
                      (currentPage props)))
       noTextDetected)
    (captureScreenshot host props r)
    (mkPosition pdfX pdfY pdfWidth pdfHeight (currentPage props)
                (Some (rect_x r)) (Some (rect_y r))
                (Some (rect_width r)) (Some (rect_height r)))
    (Date_now_timestamp host).

(** The text matcher as the specification words it: the estimated bounding box
    of a run, [[x, x + length * fontSize * 0.5] x [y, y + fontSize]], with
    [fontSize] the scale component of the run's transform. *)
Record Box := mkBox
  { box_left : number; box_right : number; box_bottom : number; box_top : number }.

Definition runBox (host : Host) (run : TextItem) : Box :=
  let x := tr4 (transform run) in
  let y := tr5 (transform run) in
  let fontSize :=
    Math_sqrt host (tr0 (transform run) * tr0 (transform run)
                    + tr1 (transform run) * tr1 (transform run)) in
  mkBox x (x + JS.length (str run) * fontSize * 0.5) y (y + fontSize).

Definition rectBox (area : TextArea) : Box :=
  mkBox (area_x area) (area_x area + area_width area)
        (area_y area) (area_y area + area_height area).

(** [run.right > rect.left && run.left < rect.right && run.top > rect.bottom &&
    run.bottom < rect.top] *)
Definition overlaps (run rect : Box) : bool :=
  gt (box_right run) (box_left rect) && lt (box_left run) (box_right rect)
  && gt (box_top run) (box_bottom rect) && lt (box_bottom run) (box_top rect).

(** The runs whose estimated box overlaps the target rectangle, in run order. *)
Definition matchedRuns (host : Host) (area : TextArea) (runs : list TextItem)
    : list TextItem :=
  filter (fun run => overlaps (runBox host run) (rectBox area)) runs.

(** The strings of a list of runs joined by single spaces. *)
Definition spaceJoined (runs : list TextItem) : string :=
  String.concat " " (map str runs).

(** The area belongs to page [n]. *)
Definition onPage (n : Z) (area : SelectedArea) : bool := Z.eqb (page (position area)) n.

(** The highlighted area, if any, is one of the listed areas. *)
Definition highlightListed (v : PDFViewer.State) : Prop :=
  match PDFViewer.highlightedArea v with
  | None => True
  | Some area => In area (PDFViewer.selectedAreas v)
  end.

(** Pointer events on the selection overlay. *)
Definition isPointerEvent (e : PDFViewer.Event) : bool :=
  match e with
  | PDFViewer.MouseDown _ _ | PDFViewer.MouseMove _ _
  | PDFViewer.MouseUp | PDFViewer.MouseLeave => true
  | _ => false
  end.

(** [kept] is [areas] with exactly the elements of id [areaId] deleted, the
    others kept as they are and in their order. *)
Inductive RemovedById (areaId : string) : list SelectedArea -> list SelectedArea -> Prop :=
| removed_nil : RemovedById areaId [] []
| removed_drop (area : SelectedArea) (areas kept : list SelectedArea) :
    id area = areaId -> RemovedById areaId areas kept ->
    RemovedById areaId (area :: areas) kept
| removed_keep (area : SelectedArea) (areas kept : list SelectedArea) :
    id area <> areaId -> RemovedById areaId areas kept ->
    RemovedById areaId (area :: areas) (area :: kept).

(** Two viewer states differ at most in their area list. *)
Definition sameButAreas (v v' : PDFViewer.State) : Prop :=
  PDFViewer.setSelectedAreas (fun _ => PDFViewer.selectedAreas v) v' = v.

End Notions.

(** ** Sample data: a one-page letter-size document *)

Module Sample.
Import JS PdfJs.
Local Open Scope Q_scope.

(** Rational square root, exact on squares of integers. *)
Definition sqrt (q : number) : number :=
  Z.sqrt (Qnum q * Z.pos (Qden q)) # Qden q.

Definition host : Host := mkHost sqrt true 1700000000000 1700000000001 "k3j9x0q2z".

Definition canvas : Canvas :=
  mkCanvas 612 792 0 0 612 792 (fun _ => "data:image/png;base64,AAAA"%string).

(** A viewport of a 612 x 792 point page: the sides are exchanged under a
    quarter turn. *)
Definition letterViewport (params : ViewportParams) : Viewport :=
  match arg_rotation params with
  | Some r =>
      if Qeq_bool r 90 || Qeq_bool r 270
      then mkViewport (792 * arg_scale params) (612 * arg_scale params)
      else mkViewport (612 * arg_scale params) (792 * arg_scale params)
  | None => mkViewport (612 * arg_scale params) (792 * arg_scale params)
  end.

Definition hello : TextItem := mkItem "Hello" (mkTransform 12 0 0 12 100 700).
Definition world : TextItem := mkItem "world" (mkTransform 12 0 0 12 140 700).
Definition footer : TextItem := mkItem "page 1" (mkTransform 10 0 0 10 72 40).

Definition page1 : PDFPage :=
  mkPage letterViewport (Normal (mkContent [hello; world; footer])).

(** The same page when fetching its text content fails. *)
Definition page1NoText : PDFPage :=
  mkPage letterViewport (Throw "text content unavailable").

Definition document (p : PDFPage) : PDFDocument :=
  mkDocument (fun n => if Z.eqb n 1 then Normal p else Throw "Invalid page request") 1.

(** A document none of whose pages can be fetched. *)
Definition brokenDocument : PDFDocument :=
  mkDocument (fun _ => Throw "Invalid page request") 1.

Definition props (doc : option PDFDocument) : AreaSelectionTool.Props :=
  AreaSelectionTool.mkProps (Some canvas) doc 1 1 None true.

(** A drag in progress from [(x0, y0)] to [(x1, y1)]. *)
Definition dragging (x0 y0 x1 y1 : number) : AreaSelectionTool.State :=
  AreaSelectionTool.mkState true (Some (AreaSelectionTool.mkPoint x0 y0))
                            (Some (AreaSelectionTool.mkPoint x1 y1)).

(** A two-page document, both pages letter size. *)
Definition book : PDFDocument :=
  mkDocument (fun n => if Z.leb 1 n && Z.leb n 2 then Normal page1
                       else Throw "Invalid page request") 2.

(** A stored area with the given id, page and PDF rectangle. *)
Definition area (name : string) (pageNo : Z) (x y w h : number)
    : AreaSelectionTool.SelectedArea :=
  AreaSelectionTool.mkSelectedArea name "text" "data:image/png;base64,AAAA"
    (AreaSelectionTool.mkPosition x y w h pageNo None None None None) 0.

(** A viewer showing page [pageNo] of [doc] at [scale], nothing loading. *)
Definition viewer (doc : PDFDocument) (pageNo : Z) (scale : number)
    (areas : list AreaSelectionTool.SelectedArea)
    (highlighted : option AreaSelectionTool.SelectedArea)
    (selectionMode : bool) (tool : AreaSelectionTool.State) : PDFViewer.State :=
  PDFViewer.mkState (doc_numPages doc) pageNo scale false "" (Some "sample.pdf"%string)
                    (Some doc) areas selectionMode highlighted canvas true tool.

(** A sequence of events, all handled with the sample host. *)
Definition events (es : list PDFViewer.Event) : list (Host * PDFViewer.Event) :=
  map (pair host) es.

End Sample.

(** ** Further host functions *)

Module JSLib.
Import JS.

(** [s.substring(0, n)] for a non-negative integer [n]. *)
Definition substring0 (n : nat) (s : string) : string := String.substring 0 n s.

(** [haystack.includes(needle)]: [needle] occurs at some position, case kept. *)
Fixpoint includes (needle haystack : string) : bool :=
  match haystack with
  | EmptyString => String.prefix needle EmptyString
  | String _ rest => String.prefix needle haystack || includes needle rest
  end.

(** [Math.ceil] and [Math.round] (halves go up). *)
Definition Math_ceil (a : number) : Z := Qceiling a.
Definition Math_round (a : number) : Z := Qfloor (a + (1 # 2)).

(** [a % b] on integers: the sign follows the dividend. *)
Definition remainder (a b : Z) : Z := Z.rem a b.

(** [list.slice(start, end)] for integer arguments: a negative index counts
    from the end, indices are clamped to the list. *)
Definition slice {A : Type} (start finish : Z) (l : list A) : list A :=
  let len := Z.of_nat (List.length l) in
  let k := if Z.ltb start 0 then Z.max (len + start) 0 else Z.min start len in
  let final := if Z.ltb finish 0 then Z.max (len + finish) 0 else Z.min finish len in
  firstn (Z.to_nat (final - k)) (skipn (Z.to_nat k) l).

(** The value of a decimal digit, if the character is one. *)
Definition digitValue (c : ascii) : option Z :=
  let n := nat_of_ascii c in
  if Nat.leb 48 n && Nat.leb n 57 then Some (Z.of_nat (n - 48)) else None.

(** The integer denoted by the longest prefix of decimal digits, after [acc];
    [seen] tells whether a digit has been read. *)
Fixpoint parseDigits (acc : Z) (seen : bool) (s : string) : option Z :=
  match s with
  | EmptyString => if seen then Some acc else None
  | String c rest =>
      match digitValue c with
      | Some d => parseDigits (10 * acc + d) true rest
      | None => if seen then Some acc else None
      end
  end.

(** [parseInt(s, 10)]: leading white space is skipped, one sign is accepted,
    then the longest run of digits is read; [None] is [NaN]. *)
Definition parseInt10 (s : string) : option Z :=
  match trimStart s with
  | String "-" rest => option_map Z.opp (parseDigits 0 false rest)
  | String "+" rest => parseDigits 0 false rest
  | rest => parseDigits 0 false rest
  end.

End JSLib.

(** ** SelectedAreasList.tsx: the text shown for an area *)

Module ListText.
Import JS JSLib.

(** [truncateText(text, maxLength = 100)] *)
Definition truncateText (text : string) (maxLength : nat) : string :=
  if Nat.leb (String.length text) maxLength then text
  else (substring0 maxLength text ++ "...")%string.

Definition defaultMaxLength : nat := 100.

End ListText.

(** ** The paged area list (src/unnamed/part_000) *)

Module PagedList.
Import JS JSLib.
Import AreaSelectionTool(SelectedArea).
Local Open Scope Z_scope.

Definition ITEMS_PER_PAGE : Z := 5.

(** [Math.ceil(selectedAreas.length / ITEMS_PER_PAGE)] *)
Definition totalPages (selectedAreas : list SelectedArea) : Z :=
  Math_ceil (Qdiv (inject_Z (Z.of_nat (List.length selectedAreas))) (inject_Z ITEMS_PER_PAGE)).

Definition startIndex (currentPage : Z) : Z := (currentPage - 1) * ITEMS_PER_PAGE.

(** [selectedAreas.slice(startIndex, startIndex + ITEMS_PER_PAGE)] *)
Definition currentAreas (selectedAreas : list SelectedArea) (currentPage : Z)
    : list SelectedArea :=
  slice (startIndex currentPage) (startIndex currentPage + ITEMS_PER_PAGE) selectedAreas.


Definition goToPreviousPage (currentPage : Z) : Z := Z.max (currentPage - 1) 1.

Definition goToNextPage (selectedAreas : list SelectedArea) (currentPage : Z) : Z :=
  Z.min (currentPage + 1) (totalPages selectedAreas).

(** This file's [truncateText]: empty text is returned as it is, and the cut
    text is trimmed before the dots are added. *)
Definition truncateText (text : string) (maxLength : nat) : string :=
  match text with
  | EmptyString => text
  | _ =>
      if Nat.leb (String.length text) maxLength then text
      else (trim (substring0 maxLength text) ++ "...")%string
  end.

End PagedList.

(** ** index.ts: page input, fit-to-width, and the control's [updateView] *)

Module Navigation.
Import JS JSLib PdfJs.
Import PDFViewer(State, numPages, pageNumber, setPageNumber, setScale).
Local Open Scope Q_scope.

(** [handleZoomFit], with the [allocatedWidth] prop. *)
Definition handleZoomFit (allocatedWidth : number) : State -> State :=
  let fitScale := (allocatedWidth - 100) / 800 in
  setScale (fun _ => Math_max 0.5 (Math_min fitScale 2.0)).

(** [handlePageInputChange], with [event.target.value]. *)
Definition handlePageInputChange (value : string) (v : State) : State :=
  match parseInt10 value with
  | Some newPage =>
      if Z.leb 1 newPage && Z.leb newPage (numPages v)
      then setPageNumber (fun _ => newPage) v
      else v
  | None => v
  end.

(** The [value] shown in the page input: [pageNumber.toString()]. *)
Definition pageInputValue (v : State) : string := toString (pageNumber v).

End Navigation.

Module Control.
Import JS.

(** What [updateView] reads from the context: the [raw] value of each
    parameter ([None] when the parameter or its value is missing) and the
    allocated size. *)
Record Context := mkContext
  { theme : option string;
    width : option string;
    height : option string;
    showThumbnails : option bool;
    enableDownload : option bool;
    enablePrint : option bool;
    allocatedWidth : Z;
    allocatedHeight : Z }.

(** What [updateView] hands to the elements it creates. *)
Record View := mkView
  { darkTheme : bool;
    styleWidth : string;
    styleHeight : string;
    showThumbnailsValue : bool;
    enableDownloadValue : bool;
    enablePrintValue : bool;
    viewerAllocatedWidth : Z;
    viewerAllocatedHeight : Z }.

(** [n || fallback] on numbers: zero is falsy. *)
Definition number_or (n fallback : Z) : Z := if Z.eqb n 0 then fallback else n.

(** [raw || fallback] on an optional string: missing and empty are falsy. *)
Definition string_or (raw : option string) (fallback : string) : string :=
  match raw with
  | Some s => or_else s fallback
  | None => fallback
  end.

(** [raw || true] on an optional boolean. *)
Definition bool_or_true (raw : option bool) : bool :=
  match raw with
  | Some true => true
  | _ => true
  end.

Definition updateView (context : Context) : View :=
  let allocatedWidth := number_or (allocatedWidth context) 800 in
  let allocatedHeight := number_or (allocatedHeight context) 600 in
  let themeValue := string_or (theme context) "light" in
  let widthValue := string_or (width context) (toString allocatedWidth ++ "px") in
  let heightValue := string_or (height context) (toString allocatedHeight ++ "px") in
  let showThumbnailsValue := bool_or_true (showThumbnails context) in
  let enableDownloadValue := bool_or_true (enableDownload context) in
  let enablePrintValue := bool_or_true (enablePrint context) in
  mkView (String.eqb themeValue "dark") widthValue heightValue
         showThumbnailsValue enableDownloadValue enablePrintValue
         allocatedWidth allocatedHeight.

End Control.

(** ** The weather widget (src/unnamed/part_002) *)

Module WeatherWidget.
Import JS JSLib.
Local Open Scope Q_scope.

(** The eight icon strings of the widget, in the order of [getWeatherIcon]:
    cloud, rain cloud, snowflake, fog, thunder cloud, sun, sun behind cloud,
    sun behind small cloud.  They are pairwise different strings. *)
Inductive Icon : Type :=
| Cloud | RainCloud | Snowflake | Fog | ThunderCloud | Sun | SunBehindCloud
| SunBehindSmallCloud.

Definition getWeatherIcon (temp : number) (condition : string) : Icon :=
  if includes "cloud" condition then Cloud
  else if includes "rain" condition then RainCloud
  else if includes "snow" condition then Snowflake
  else if includes "fog" condition then Fog
  else if includes "storm" condition then ThunderCloud
  else if gt temp 25 then Sun
  else if gt temp 15 then SunBehindCloud
  else SunBehindSmallCloud.

(** The condition computed from [weather_code] in [fetchWeatherData]. *)
Definition conditionOf (weatherCode : number) : string :=
  if Qeq_bool weatherCode 0 then "Clear sky"
  else if Qle_bool weatherCode 3 then "Partly cloudy"
  else if Qle_bool weatherCode 67 then "Rainy"
  else if Qle_bool weatherCode 77 then "Snowy"
  else if Qle_bool weatherCode 99 then "Stormy"
  else "Sunny".

(** The icon stored by [fetchWeatherData] for a temperature and weather code. *)
Definition fetchedIcon (temperature_2m weatherCode : number) : Icon :=
  let temp := inject_Z (Math_round temperature_2m) in
  getWeatherIcon temp (conditionOf weatherCode).

(** The condition text rendered beside the icon. *)
Definition renderedCondition (weatherIcon : Icon) : string :=
  match weatherIcon with
  | Sun => "Sunny"
  | SunBehindCloud => "Partly cloudy"
  | Cloud => "Cloudy"
  | RainCloud => "Rainy"
  | _ => "Clear"
  end.

End WeatherWidget.

(** ** The viewer with rotation (src/unnamed/part_003) *)

Module RotatingViewer.
Import JS JSLib PdfJs.
Import AreaSelectionTool(SelectedArea, position, page).
Import PDFViewer(CanvasOp, SetWidth, SetHeight, ClearRect, forEachArea).
Local Open Scope Q_scope.

(** [handleRotation]'s update of the rotation state. *)
Definition handleRotation (prev : Z) : Z := remainder (prev + 90) 360.

(** What the redraw effect reads: the two canvas refs (the selection canvas as
    whether it yields a 2D context), the document and the view settings. *)
Record State := mkState
  { canvasRef : option Canvas;
    selectionCanvasRef : option bool;
    pdfDoc : option PDFDocument;
    pageNumber : Z;
    scale : number;
    rotation : Z;
    selectedAreas : list SelectedArea;
    highlightedArea : option SelectedArea }.

(** [handleAreaSelected]: [setSelectedAreas(prev => [...prev, area])]. *)
Definition handleAreaSelected (area : SelectedArea) (v : State) : State :=
  mkState (canvasRef v) (selectionCanvasRef v) (pdfDoc v) (pageNumber v) (scale v)
          (rotation v) (selectedAreas v ++ [area]) (highlightedArea v).

(** The props given to [<AreaSelectionTool>]: here the rotation is passed. *)
Definition toolProps (v : State) (isSelectionMode : bool) : AreaSelectionTool.Props :=
  AreaSelectionTool.mkProps (canvasRef v) (pdfDoc v) (pageNumber v) (scale v)
                            (Some (inject_Z (rotation v))) isSelectionMode.

(** The redraw effect of this viewer: the overlay is sized and cleared before
    the page is looked up; the body of [forEach] is that of index.ts. *)
Definition drawSelectionBoxes (v : State) : list CanvasOp :=
  match canvasRef v, selectionCanvasRef v, pdfDoc v with
  | Some mainCanvas, Some context2d, Some doc =>
      if negb context2d then []
      else
        [ SetWidth (cv_width mainCanvas);
          SetHeight (cv_height mainCanvas);
          ClearRect 0 0 (cv_width mainCanvas) (cv_height mainCanvas) ]
        ++ let currentPageAreas :=
             filter (fun area => Z.eqb (page (position area)) (pageNumber v))
                    (selectedAreas v) in
           match currentPageAreas with
           | [] => []
           | _ =>
               match getPage doc (pageNumber v) with
               | Throw _ => []
               | Normal pg =>
                   let pdfViewport := getViewport pg (mkParams 1.0 None) in
                   let canvasViewport :=
                     getViewport pg (mkParams (scale v) (Some (inject_Z (rotation v)))) in
                   flat_map (forEachArea pdfViewport canvasViewport (highlightedArea v))
                            currentPageAreas
               end
           end
  | _, _, _ => []
  end.

End RotatingViewer.

(** ** Invariants of the viewer *)

Module Invariants.
Import JS PdfJs AreaSelectionTool.
Local Open Scope Q_scope.

(** The tool is idle, or a drag is in progress with both points set. *)
Definition toolConsistent (t : AreaSelectionTool.State) : Prop :=
  t = idle \/ exists sp cp, t = mkState true (Some sp) (Some cp).

(** The area has a text and carries a canvas box larger than the threshold. *)
Definition areaFromDrag (area : SelectedArea) : Prop :=
  text area <> ""%string /\
  exists w h,
    canvasWidth (position area) = Some w /\ canvasHeight (position area) = Some h /\
    10 < w /\ 10 < h.

(** The page number is at least 1 and, unless it is 1, at most the page count. *)
Definition pageInRange (v : PDFViewer.State) : Prop :=
  (1 <= PDFViewer.pageNumber v)%Z /\
  (PDFViewer.pageNumber v <= PDFViewer.numPages v \/ PDFViewer.pageNumber v = 1)%Z.

(** The zoom factor lies between 30% and 300%. *)
Definition scaleInRange (v : PDFViewer.State) : Prop :=
  0.3 <= PDFViewer.scale v /\ PDFViewer.scale v <= 3.0.

(** Events that can change the area list or the highlight: the end of a
    gesture and the three actions of the list. *)
Definition touchesAreas (e : PDFViewer.Event) : bool :=
  match e with
  | PDFViewer.MouseUp | PDFViewer.MouseLeave
  | PDFViewer.AreaClick _ | PDFViewer.AreaRemoveClick _ | PDFViewer.ClearAllClick => true
  | _ => false
  end.

End Invariants.

(** ** Properties *)

Local Open Scope Q_scope.

(** *** Comparisons *)

Lemma gt_true_iff (a b : JS.number) : JS.gt a b = true <-> b < a.
Proof.
  unfold JS.gt. rewrite negb_true_iff. split.
  - intros H. apply Qnot_le_lt. intros Hle.
    apply Qle_bool_iff in Hle. congruence.
  - intros H. destruct (Qle_bool a b) eqn:E; [|reflexivity].
    apply Qle_bool_iff in E. exfalso. exact (Qlt_not_le _ _ H E).
Qed.

Lemma lt_true_iff (a b : JS.number) : JS.lt a b = true <-> a < b.
Proof. unfold JS.lt. exact (gt_true_iff b a). Qed.

(** *** The minimum-size gate of [handleMouseUp] *)

Section Gate.
Import JS PdfJs AreaSelectionTool Notions.

Variable host : Host.
Variable props : Props.

Lemma gate_true_iff (sp cp : Point) :
  gt (Math_abs (pt_x cp - pt_x sp)) 10 && gt (Math_abs (pt_y cp - pt_y sp)) 10 = true
  <-> largeEnough (dragRect sp cp).
Proof.
  unfold largeEnough, dragRect; simpl.
  rewrite andb_true_iff, !gt_true_iff. tauto.
Qed.

(** An area is emitted only by the release of a drag whose bounding box passes
    the gate, whatever the props. *)
Lemma emitted_only_if_large (st : State) (area : SelectedArea) :
  emitted (handleMouseUp host props st) = Some area ->
  exists sp cp,
    isSelecting st = true /\ startPos st = Some sp /\ currentPos st = Some cp /\
    largeEnough (dragRect sp cp).
Proof.
  unfold handleMouseUp.
  destruct (isSelecting st); [|discriminate].
  destruct (startPos st) as [sp|]; [|discriminate].
  destruct (currentPos st) as [cp|]; [|discriminate].
  destruct (canvasRef props); [|discriminate].
  destruct (gt _ 10 && gt _ 10) eqn:G; [|discriminate].
  intros _. exists sp, cp. repeat split; try reflexivity; apply gate_true_iff in G; apply G.
Qed.

(** A drag below the gate emits nothing and returns the tool to idle. *)
Lemma small_drag_discarded (st : State) (sp cp : Point) :
  startPos st = Some sp -> currentPos st = Some cp ->
  ~ largeEnough (dragRect sp cp) ->
  handleMouseUp host props st = mkOutcome idle None.
Proof.
  intros Hs Hc Hsmall. unfold handleMouseUp. rewrite Hs, Hc.
  destruct (isSelecting st); [|reflexivity].
  destruct (canvasRef props); [|reflexivity].
  destruct (gt _ 10 && gt _ 10) eqn:G; [|reflexivity].
  apply gate_true_iff in G. contradiction.
Qed.

(** An area is emitted only when the document is loaded and the lookup of the
    current page succeeds. *)
Lemma emitted_only_if_page_found (st : State) (area : SelectedArea) :
  emitted (handleMouseUp host props st) = Some area ->
  exists doc pg, pdfDoc props = Some doc /\ getPage doc (currentPage props) = Normal pg.
Proof.
  unfold handleMouseUp.
  destruct (isSelecting st); [|discriminate].
  destruct (startPos st) as [sp|]; [|discriminate].
  destruct (currentPos st) as [cp|]; [|discriminate].
  destruct (canvasRef props); [|discriminate].
  destruct (gt _ 10 && gt _ 10); [|discriminate].
  destruct (pdfDoc props) as [doc|]; [|discriminate].
  destruct (getPage doc (currentPage props)) as [pg|reason] eqn:Hpg; [|discriminate].
  intros _. exists doc, pg. split; [reflexivity | exact Hpg].
Qed.

End Gate.

Section Release.
Import JS PdfJs AreaSelectionTool Notions.

Variable host : Host.
Variable props : Props.
Variable st : State.
Variables sp cp : Point.
Variable canvas : Canvas.
Variable doc : PDFDocument.

Hypothesis selecting : isSelecting st = true.
Hypothesis started : startPos st = Some sp.
Hypothesis moved : currentPos st = Some cp.
Hypothesis mounted : canvasRef props = Some canvas.
Hypothesis loaded : pdfDoc props = Some doc.

(** Release of a large enough drag when the page lookup succeeds. *)
Lemma release_page_found (pg : PDFPage) :
  largeEnough (dragRect sp cp) ->
  getPage doc (currentPage props) = Normal pg ->
  handleMouseUp host props st = mkOutcome idle (Some (builtArea host props doc sp cp pg)).
Proof.
  intros Hlarge Hpage. apply gate_true_iff in Hlarge.
  unfold handleMouseUp.
  rewrite selecting, started, moved, mounted, Hlarge, loaded, Hpage.
  reflexivity.
Qed.

(** Release of a large enough drag when the page lookup fails. *)
Lemma release_page_missing (reason : string) :
  largeEnough (dragRect sp cp) ->
  getPage doc (currentPage props) = Throw reason ->
  handleMouseUp host props st = mkOutcome idle None.
Proof.
  intros Hlarge Hpage. apply gate_true_iff in Hlarge.
  unfold handleMouseUp.
  rewrite selecting, started, moved, mounted, Hlarge, loaded, Hpage.
  reflexivity.
Qed.

End Release.

Lemma or_else_nonempty (a b : string) : b <> ""%string -> JS.or_else a b <> ""%string.
Proof. intros Hb. destruct a; simpl; [exact Hb | discriminate]. Qed.

Section Claims_gesture.
Import JS PdfJs AreaSelectionTool Notions.

(** C3, as the code has it.  The release of a drag over the mounted canvas
    emits a marked area if and only if the drag's bounding box in canvas pixels
    is more than 10 wide and more than 10 high (the test is made on the
    canvas-pixel box, before any conversion) and, besides, the document is
    loaded and the lookup of its current page succeeds. *)
Theorem drag_release_emits_iff_large_enough :
  forall (host : Host) (props : Props) (st : State) (sp cp : Point) (canvas : Canvas),
    isSelecting st = true -> startPos st = Some sp -> currentPos st = Some cp ->
    canvasRef props = Some canvas ->
    ((exists area, emitted (handleMouseUp host props st) = Some area)
     <-> (largeEnough (dragRect sp cp) /\
          exists doc pg,
            pdfDoc props = Some doc /\ getPage doc (currentPage props) = Normal pg)).
Proof.
  intros host props st sp cp canvas Hsel Hs Hc Hcv. split.
  - intros [area Harea]. split.
    + destruct (emitted_only_if_large host props st Harea)
        as (sp' & cp' & _ & Hs' & Hc' & Hl).
      congruence.
    + eapply emitted_only_if_page_found; eauto.
  - intros (Hlarge & doc & pg & Hdoc & Hpg).
    exists (builtArea host props doc sp cp pg).
    erewrite release_page_found; eauto. reflexivity.
Qed.

(** An 11 x 11 drag on the sample page emits an area. *)
Lemma drag_release_emits_iff_large_enough_witness :
  exists area,
    emitted (handleMouseUp Sample.host (Sample.props (Some (Sample.document Sample.page1)))
                           (Sample.dragging 20 30 31 41)) = Some area.
Proof.
  apply (proj2 (drag_release_emits_iff_large_enough Sample.host
                  (Sample.props (Some (Sample.document Sample.page1)))
                  (Sample.dragging 20 30 31 41)
                  (sp := mkPoint 20 30) (cp := mkPoint 31 41)
                  (canvas := Sample.canvas) eq_refl eq_refl eq_refl eq_refl)).
  split.
  - split; reflexivity.
  - exists (Sample.document Sample.page1), Sample.page1. split; reflexivity.
Defined.

(** C3 as stated fails: an 11 x 11 drag passes the gate, yet with a loaded
    document whose page lookup fails the release emits no area. *)
Lemma large_drag_with_failing_page_lookup_emits_nothing :
  largeEnough (dragRect (mkPoint 20 30) (mkPoint 31 41)) /\
  getPage Sample.brokenDocument
          (currentPage (Sample.props (Some Sample.brokenDocument)))
  = Throw "Invalid page request" /\
  emitted (handleMouseUp Sample.host (Sample.props (Some Sample.brokenDocument))
                         (Sample.dragging 20 30 31 41))
  = None.
Proof. repeat split. Qed.

(** A 49 x 3 drag emits nothing: its height is below the threshold. *)
Example drag_49_by_3_emits_nothing :
  handleMouseUp Sample.host (Sample.props (Some (Sample.document Sample.page1)))
                (Sample.dragging 100 200 149 203)
  = mkOutcome idle None.
Proof. reflexivity. Qed.

(** A drag of exactly 10 x 10 emits nothing: the comparison is strict. *)
Example drag_10_by_10_emits_nothing :
  handleMouseUp Sample.host (Sample.props (Some (Sample.document Sample.page1)))
                (Sample.dragging 100 200 110 190)
  = mkOutcome idle None.
Proof. reflexivity. Qed.

(** An 11 x 11 drag, here drawn from right to left, emits one area. *)
Example drag_11_by_11_emits_one :
  emitted (handleMouseUp Sample.host (Sample.props (Some (Sample.document Sample.page1)))
                         (Sample.dragging 111 200 100 211))
  = Some (builtArea Sample.host (Sample.props (Some (Sample.document Sample.page1)))
                    (Sample.document Sample.page1) (mkPoint 111 200) (mkPoint 100 211)
                    Sample.page1).
Proof. reflexivity. Qed.

(** C4, as the code has it.  For the release of a large enough drag with the
    document loaded: when the page lookup succeeds an area is emitted that
    carries the screenshot captured before the lookups and a non-empty text,
    which is the sentinel ["Error extracting text"] when fetching the text
    content fails; when the page lookup itself fails the failure is caught, the
    tool returns to idle and no area is emitted. *)
Theorem release_keeps_screenshot_when_text_fails :
  forall (host : Host) (props : Props) (st : State) (sp cp : Point)
         (canvas : Canvas) (doc : PDFDocument),
    isSelecting st = true -> startPos st = Some sp -> currentPos st = Some cp ->
    canvasRef props = Some canvas -> pdfDoc props = Some doc ->
    largeEnough (dragRect sp cp) ->
    (forall pg, getPage doc (currentPage props) = Normal pg ->
       exists area,
         handleMouseUp host props st = mkOutcome idle (Some area) /\
         screenshot area = captureScreenshot host props (dragRect sp cp) /\
         text area <> ""%string /\
         (forall reason, getTextContent pg = Throw reason -> text area = errorExtractingText))
    /\
    (forall reason, getPage doc (currentPage props) = Throw reason ->
       handleMouseUp host props st = mkOutcome idle None).
Proof.
  intros host props st sp cp canvas doc Hsel Hs Hc Hcv Hdoc Hlarge. split.
  - intros pg Hpg. exists (builtArea host props doc sp cp pg).
    split; [eapply release_page_found; eauto|].
    split; [reflexivity|]. split.
    + apply or_else_nonempty. discriminate.
    + intros reason Htext. unfold builtArea, text, extractTextFromArea.
      cbn [area_page]. rewrite Hpg. cbn [bind]. rewrite Htext. reflexivity.
  - intros reason Hpg.
    eapply release_page_missing; eauto.
Qed.

(** On the sample page whose text content cannot be fetched, a 100 x 50 drag
    still yields an area with the screenshot and the sentinel text. *)
Lemma release_keeps_screenshot_when_text_fails_witness :
  exists area,
    handleMouseUp Sample.host (Sample.props (Some (Sample.document Sample.page1NoText)))
                  (Sample.dragging 100 100 200 150) = mkOutcome idle (Some area) /\
    screenshot area = "data:image/png;base64,AAAA"%string /\
    text area = "Error extracting text"%string.
Proof.
  destruct (release_keeps_screenshot_when_text_fails Sample.host
              (Sample.props (Some (Sample.document Sample.page1NoText)))
              (Sample.dragging 100 100 200 150)
              (sp := mkPoint 100 100) (cp := mkPoint 200 150)
              (canvas := Sample.canvas) (doc := Sample.document Sample.page1NoText)
              eq_refl eq_refl eq_refl eq_refl eq_refl (conj eq_refl eq_refl))
    as [Hfound _].
  destruct (Hfound Sample.page1NoText eq_refl) as (area & Hout & Hshot & _ & Htext).
  exists area. split; [exact Hout|]. split; [exact Hshot|].
  exact (Htext "text content unavailable"%string eq_refl).
Defined.

(** C4 as stated fails: with the document loaded and a drag that passes the
    gate, a failing page lookup leaves no area at all, screenshot included. *)
Lemma release_with_failing_page_lookup_emits_nothing :
  pdfDoc (Sample.props (Some Sample.brokenDocument)) = Some Sample.brokenDocument /\
  largeEnough (dragRect (mkPoint 100 100) (mkPoint 200 150)) /\
  getPage Sample.brokenDocument 1 = Throw "Invalid page request" /\
  handleMouseUp Sample.host (Sample.props (Some Sample.brokenDocument))
                (Sample.dragging 100 100 200 150)
  = mkOutcome idle None.
Proof. repeat split. Qed.

End Claims_gesture.

(** *** Strings: [trim] and trailing spaces *)

Section Strings.
Import JS.
Local Open Scope string_scope.

Lemma append_assoc (s t u : string) : (s ++ t) ++ u = s ++ (t ++ u).
Proof. induction s as [|c s IH]; simpl; [reflexivity | now rewrite IH]. Qed.

Lemma list_ascii_of_append (s t : string) :
  list_ascii_of_string (s ++ t) = (list_ascii_of_string s ++ list_ascii_of_string t)%list.
Proof. induction s as [|c s IH]; simpl; [reflexivity | now rewrite IH]. Qed.

Lemma string_of_list_ascii_app (l1 l2 : list ascii) :
  string_of_list_ascii (l1 ++ l2) = string_of_list_ascii l1 ++ string_of_list_ascii l2.
Proof. induction l1 as [|c l1 IH]; simpl; [reflexivity | now rewrite IH]. Qed.

Lemma reverse_append_space (s : string) : reverse (s ++ " ") = String " " (reverse s).
Proof.
  unfold reverse. rewrite list_ascii_of_append, rev_app_distr.
  rewrite string_of_list_ascii_app. reflexivity.
Qed.

Lemma trimEnd_append_space (s : string) : trimEnd (s ++ " ") = trimEnd s.
Proof. unfold trimEnd. rewrite reverse_append_space. reflexivity. Qed.

(** A space appended to a string is trimmed away. *)
Lemma trim_append_space (s : string) : trim (s ++ " ") = trim s.
Proof.
  unfold trim. induction s as [|c s IH].
  - reflexivity.
  - change (String c s ++ " ") with (String c (s ++ " ")).
    cbn [trimStart]. destruct (isWhiteSpace c).
    + exact IH.
    + change (String c (s ++ " ")) with (String c s ++ " ").
      apply trimEnd_append_space.
Qed.

(** The strings of a list, each followed by a space: what the loop of
    [extractTextFromArea] accumulates. *)
Lemma trailing_spaces_concat (l : list string) :
  l <> [] ->
  fold_right (fun s acc => s ++ " " ++ acc) "" l = String.concat " " l ++ " ".
Proof.
  induction l as [|s l IH]; [congruence|]. intros _.
  destruct l as [|t l].
  - reflexivity.
  - cbn [fold_right] in *. rewrite IH by discriminate.
    cbn [String.concat]. rewrite !append_assoc. reflexivity.
Qed.

Lemma trim_trailing_spaces (l : list string) :
  trim (fold_right (fun s acc => s ++ " " ++ acc) "" l) = trim (String.concat " " l).
Proof.
  destruct l as [|s l]; [reflexivity|].
  rewrite trailing_spaces_concat by discriminate. apply trim_append_space.
Qed.

End Strings.

(** *** The text matcher *)

Section Matcher.
Import JS PdfJs AreaSelectionTool Notions.
Local Open Scope string_scope.

Variable host : Host.
Variable area : TextArea.

(** One step of the loop appends the run's string and a space exactly when the
    run's estimated box overlaps the target rectangle. *)
Lemma forEachItem_overlaps (extractedText : string) (run : TextItem) :
  forEachItem host area extractedText run =
  if overlaps (runBox host run) (rectBox area)
  then extractedText ++ (str run ++ " ")
  else extractedText.
Proof.
  unfold forEachItem, overlaps, runBox, rectBox; cbn.
  rewrite !andb_assoc. reflexivity.
Qed.

(** The loop accumulates the matched runs, in run order. *)
Lemma forEach_accumulates (runs : list TextItem) (extractedText : string) :
  fold_left (forEachItem host area) runs extractedText =
  extractedText
  ++ fold_right (fun s acc => s ++ " " ++ acc) "" (map str (matchedRuns host area runs)).
Proof.
  revert extractedText. induction runs as [|run runs IH]; intros acc; cbn [fold_left].
  - cbn. induction acc as [|c acc IHacc]; cbn; [reflexivity | now rewrite <- IHacc].
  - rewrite IH, forEachItem_overlaps. unfold matchedRuns. cbn [filter].
    destruct (overlaps (runBox host run) (rectBox area)); [|reflexivity].
    cbn [map fold_right]. rewrite !append_assoc. reflexivity.
Qed.

(** A run is matched exactly when it is listed and its box overlaps. *)
Lemma matchedRuns_spec (runs : list TextItem) (run : TextItem) :
  In run (matchedRuns host area runs) <->
  In run runs /\
  (box_left (rectBox area) < box_right (runBox host run) /\
   box_left (runBox host run) < box_right (rectBox area) /\
   box_bottom (rectBox area) < box_top (runBox host run) /\
   box_bottom (runBox host run) < box_top (rectBox area))%Q.
Proof.
  unfold matchedRuns. rewrite filter_In. unfold overlaps.
  rewrite !andb_true_iff, !gt_true_iff, !lt_true_iff. tauto.
Qed.

End Matcher.

Section Claims_matcher.
Import JS PdfJs AreaSelectionTool Notions.

(** C5.  When the page's text content is fetched and no run's estimated box
    overlaps the target rectangle, [extractTextFromArea] returns the sentinel
    ["No text detected in selected area"], which is not the empty string (and a
    string is never null). *)
Theorem no_overlap_gives_sentinel :
  forall (host : Host) (doc : PDFDocument) (area : TextArea)
         (pg : PDFPage) (content : TextContent),
    getPage doc (area_page area) = Normal pg ->
    getTextContent pg = Normal content ->
    (forall run, In run (items content) ->
                 overlaps (runBox host run) (rectBox area) = false) ->
    extractTextFromArea host (Some doc) area = "No text detected in selected area"%string
    /\ extractTextFromArea host (Some doc) area <> ""%string.
Proof.
  intros host doc area pg content Hpg Htext Hnone.
  assert (Hempty : matchedRuns host area (items content) = []).
  { unfold matchedRuns. induction (items content) as [|run runs IH]; [reflexivity|].
    cbn [filter]. rewrite (Hnone run (or_introl eq_refl)).
    apply IH. intros r Hr. apply Hnone. right. exact Hr. }
  assert (Hres : extractTextFromArea host (Some doc) area = noTextDetected).
  { unfold extractTextFromArea. rewrite Hpg. cbn [bind]. rewrite Htext. cbn [bind].
    rewrite forEach_accumulates, Hempty. reflexivity. }
  rewrite Hres. split; [reflexivity | discriminate].
Qed.

(** A rectangle in the empty middle of the sample page. *)
Lemma no_overlap_gives_sentinel_witness :
  extractTextFromArea Sample.host (Some (Sample.document Sample.page1))
                      (mkTextArea 300 300 50 50 1)
  = "No text detected in selected area"%string
  /\ extractTextFromArea Sample.host (Some (Sample.document Sample.page1))
                         (mkTextArea 300 300 50 50 1) <> ""%string.
Proof.
  apply (no_overlap_gives_sentinel Sample.host (Sample.document Sample.page1)
           (mkTextArea 300 300 50 50 1) (pg := Sample.page1)
           (content := mkContent [Sample.hello; Sample.world; Sample.footer])
           eq_refl eq_refl).
  intros run [<-|[<-|[<-|[]]]]; reflexivity.
Defined.

(** C6.  With the page's text content fetched, the runs that contribute to the
    result are exactly those whose estimated box
    [[x, x + length * fontSize * 0.5] x [y, y + fontSize]] overlaps the target
    rectangle (strict inequalities on all four sides, so partial overlap is
    enough), and the result is their strings joined by single spaces in run
    order, trimmed, with the sentinel standing in for an empty result. *)
Theorem matcher_joins_overlapping_runs :
  forall (host : Host) (doc : PDFDocument) (area : TextArea)
         (pg : PDFPage) (content : TextContent),
    getPage doc (area_page area) = Normal pg ->
    getTextContent pg = Normal content ->
    (forall run,
        In run (matchedRuns host area (items content)) <->
        In run (items content) /\
        area_x area < tr4 (transform run)
                      + JS.length (str run)
                        * Math_sqrt host (tr0 (transform run) * tr0 (transform run)
                                          + tr1 (transform run) * tr1 (transform run))
                        * 0.5 /\
        tr4 (transform run) < area_x area + area_width area /\
        area_y area < tr5 (transform run)
                      + Math_sqrt host (tr0 (transform run) * tr0 (transform run)
                                        + tr1 (transform run) * tr1 (transform run)) /\
        tr5 (transform run) < area_y area + area_height area)
    /\ extractTextFromArea host (Some doc) area
       = or_else (trim (spaceJoined (matchedRuns host area (items content))))
                 noTextDetected.
Proof.
  intros host doc area pg content Hpg Htext. split.
  - intros run. apply matchedRuns_spec.
  - unfold extractTextFromArea. rewrite Hpg. cbn [bind]. rewrite Htext. cbn [bind].
    rewrite forEach_accumulates. cbn [append].
    rewrite trim_trailing_spaces. reflexivity.
Qed.

(** A rectangle that cuts through "Hello" and "world" on the sample page without
    containing either, and misses the footer. *)
Lemma matcher_joins_overlapping_runs_witness :
  extractTextFromArea Sample.host (Some (Sample.document Sample.page1))
                      (mkTextArea 110 695 40 10 1)
  = "Hello world"%string.
Proof.
  destruct (matcher_joins_overlapping_runs Sample.host (Sample.document Sample.page1)
              (mkTextArea 110 695 40 10 1) (pg := Sample.page1)
              (content := mkContent [Sample.hello; Sample.world; Sample.footer])
              eq_refl eq_refl) as [_ Hresult].
  rewrite Hresult. reflexivity.
Defined.

(** The output is trimmed: a matched run of blanks alone leaves the sentinel. *)
Example blank_run_gives_sentinel :
  extractTextFromArea Sample.host
    (Some (Sample.document
             (mkPage Sample.letterViewport
                     (Normal (mkContent [mkItem " " (mkTransform 12 0 0 12 100 700)])))))
    (mkTextArea 90 690 40 40 1)
  = "No text detected in selected area"%string.
Proof. reflexivity. Qed.

End Claims_matcher.

(** *** Overlay redraw *)

Section Redraw.
Import JS PdfJs AreaSelectionTool Notions.
Import PDFViewer(drawSelectionBoxes, forEachArea, areaRect, strokedRects, filledRects,
                 CanvasOp, SetWidth, SetHeight, ClearRect).

Lemma strokedRects_app (ops1 ops2 : list CanvasOp) :
  strokedRects (ops1 ++ ops2) = strokedRects ops1 ++ strokedRects ops2.
Proof.
  induction ops1 as [|op ops1 IH]; [reflexivity|].
  destruct op; cbn; rewrite IH; reflexivity.
Qed.

Lemma filledRects_app (ops1 ops2 : list CanvasOp) :
  filledRects (ops1 ++ ops2) = filledRects ops1 ++ filledRects ops2.
Proof.
  induction ops1 as [|op ops1 IH]; [reflexivity|].
  destruct op; cbn; rewrite IH; reflexivity.
Qed.

(** Each drawn area is stroked once and filled once, at its [areaRect]. *)
Lemma strokedRects_areas (pv cv : Viewport) (h : option SelectedArea) (areas : list SelectedArea) :
  strokedRects (flat_map (forEachArea pv cv h) areas) = map (areaRect pv cv) areas.
Proof.
  induction areas as [|area areas IH]; [reflexivity|].
  cbn [flat_map map]. rewrite strokedRects_app, IH. reflexivity.
Qed.

Lemma filledRects_areas (pv cv : Viewport) (h : option SelectedArea) (areas : list SelectedArea) :
  filledRects (flat_map (forEachArea pv cv h) areas) = map (areaRect pv cv) areas.
Proof.
  induction areas as [|area areas IH]; [reflexivity|].
  cbn [flat_map map]. rewrite filledRects_app, IH. reflexivity.
Qed.

(** The early return on an empty page list changes nothing. *)
Lemma forEach_or_return (A B : Type) (f : A -> list B) (l : list A) :
  match l with [] => [] | _ => flat_map f l end = flat_map f l.
Proof. destruct l; reflexivity. Qed.

Variable v : PDFViewer.State.

(** The redraw when everything it needs is there. *)
Lemma drawSelectionBoxes_running (doc : PDFDocument) (pg : PDFPage) :
  PDFViewer.documentMounted v = true ->
  PDFViewer.selectionContext2d v = true ->
  PDFViewer.pdfDoc v = Some doc ->
  getPage doc (PDFViewer.pageNumber v) = Normal pg ->
  drawSelectionBoxes v =
  [ SetWidth (cv_width (PDFViewer.canvas v));
    SetHeight (cv_height (PDFViewer.canvas v));
    ClearRect 0 0 (cv_width (PDFViewer.canvas v)) (cv_height (PDFViewer.canvas v)) ]
  ++ flat_map (forEachArea (getViewport pg (mkParams 1.0 None))
                           (getViewport pg (mkParams (PDFViewer.scale v) None))
                           (PDFViewer.highlightedArea v))
              (filter (onPage (PDFViewer.pageNumber v)) (PDFViewer.selectedAreas v)).
Proof.
  intros Hm Hctx Hdoc Hpg.
  unfold drawSelectionBoxes, PDFViewer.canvasRef, PDFViewer.selectionCanvasRef.
  rewrite Hm, Hctx, Hdoc, Hpg. cbn [negb].
  rewrite forEach_or_return. reflexivity.
Qed.

(** The redraw reads the area list only through the areas of the current page. *)
Lemma drawSelectionBoxes_filter (areas : list SelectedArea) :
  filter (onPage (PDFViewer.pageNumber v)) areas
  = filter (onPage (PDFViewer.pageNumber v)) (PDFViewer.selectedAreas v) ->
  drawSelectionBoxes (PDFViewer.setSelectedAreas (fun _ => areas) v) = drawSelectionBoxes v.
Proof.
  intros Hsame.
  unfold drawSelectionBoxes, PDFViewer.canvasRef, PDFViewer.selectionCanvasRef.
  change (PDFViewer.documentMounted (PDFViewer.setSelectedAreas (fun _ => areas) v))
    with (PDFViewer.documentMounted v).
  cbn [PDFViewer.setSelectedAreas PDFViewer.pdfDoc PDFViewer.pageNumber PDFViewer.scale
       PDFViewer.canvas PDFViewer.selectionContext2d PDFViewer.selectedAreas
       PDFViewer.highlightedArea].
  fold (onPage (PDFViewer.pageNumber v)). rewrite Hsame. reflexivity.
Qed.

End Redraw.

Section Claims_redraw.
Import JS PdfJs AreaSelectionTool Notions.
Import PDFViewer(drawSelectionBoxes, forEachArea, areaRect, strokedRects, filledRects).

(** C7.  An overlay redraw draws exactly the areas of the current page: the
    rectangles it strokes and fills are those of the listed areas whose
    [position.page] is the current page number, one each and in list order; an
    area of another page is never drawn, since taking it out of the list, from
    any place in it, leaves the redraw as it was. *)
Theorem redraw_draws_current_page_only :
  forall (v : PDFViewer.State),
    (forall doc pg,
        PDFViewer.documentMounted v = true ->
        PDFViewer.selectionContext2d v = true ->
        PDFViewer.pdfDoc v = Some doc ->
        getPage doc (PDFViewer.pageNumber v) = Normal pg ->
        let drawn :=
          map (areaRect (getViewport pg (mkParams 1.0 None))
                        (getViewport pg (mkParams (PDFViewer.scale v) None)))
              (filter (fun area => Z.eqb (page (position area)) (PDFViewer.pageNumber v))
                      (PDFViewer.selectedAreas v)) in
        strokedRects (drawSelectionBoxes v) = drawn /\
        filledRects (drawSelectionBoxes v) = drawn)
    /\
    (forall before area after,
        PDFViewer.selectedAreas v = before ++ area :: after ->
        page (position area) <> PDFViewer.pageNumber v ->
        drawSelectionBoxes v
        = drawSelectionBoxes (PDFViewer.setSelectedAreas (fun _ => before ++ after) v)).
Proof.
  intros v. split.
  - intros doc pg Hm Hctx Hdoc Hpg drawn.
    rewrite (drawSelectionBoxes_running v Hm Hctx Hdoc Hpg).
    rewrite strokedRects_app, filledRects_app, strokedRects_areas, filledRects_areas.
    split; reflexivity.
  - intros before area after Hlist Hpage. symmetry.
    assert (Hoff : onPage (PDFViewer.pageNumber v) area = false)
      by (unfold onPage; now apply Z.eqb_neq).
    apply drawSelectionBoxes_filter. rewrite Hlist, !filter_app. cbn [filter].
    rewrite Hoff. reflexivity.
Qed.

(** Page 2 of the sample book with one area on page 1 and one on page 2: only
    the second is drawn, and the first can be dropped without a trace. *)
Lemma redraw_draws_current_page_only_witness :
  strokedRects
    (drawSelectionBoxes
       (Sample.viewer Sample.book 2 1
          [Sample.area "a1" 1 10 20 30 40; Sample.area "a2" 2 50 60 70 80]
          None false idle))
  = [areaRect (Sample.letterViewport (mkParams 1.0 None))
              (Sample.letterViewport (mkParams 1 None))
              (Sample.area "a2" 2 50 60 70 80)]
  /\
  drawSelectionBoxes
    (Sample.viewer Sample.book 2 1
       [Sample.area "a1" 1 10 20 30 40; Sample.area "a2" 2 50 60 70 80]
       None false idle)
  = drawSelectionBoxes
      (Sample.viewer Sample.book 2 1 [Sample.area "a2" 2 50 60 70 80] None false idle).
Proof.
  destruct (redraw_draws_current_page_only
              (Sample.viewer Sample.book 2 1
                 [Sample.area "a1" 1 10 20 30 40; Sample.area "a2" 2 50 60 70 80]
                 None false idle)) as [Hdrawn Hframe].
  split.
  - destruct (Hdrawn Sample.book Sample.page1 eq_refl eq_refl eq_refl eq_refl) as [Hs _].
    exact Hs.
  - apply (Hframe [] (Sample.area "a1" 1 10 20 30 40) [Sample.area "a2" 2 50 60 70 80]
                  eq_refl).
    discriminate.
Defined.

(** The redraw for page 2 strokes the page-2 area at its own place only. *)
Example redraw_page_2_skips_page_1 :
  strokedRects
    (drawSelectionBoxes
       (Sample.viewer Sample.book 2 1
          [Sample.area "a1" 1 10 20 30 40; Sample.area "a2" 2 50 60 70 80]
          None false idle))
  = [mkRect (50 / (612 * 1.0) * (612 * 1)) (60 / (792 * 1.0) * (792 * 1))
            (70 / (612 * 1.0) * (612 * 1)) (80 / (792 * 1.0) * (792 * 1))].
Proof. reflexivity. Qed.

End Claims_redraw.

(** *** Coordinates: creation and redraw *)

Lemma rescale_round_trip (x a b : Q) :
  ~ a == 0 -> ~ b == 0 -> x / a * b / b * a == x.
Proof. intros Ha Hb. field. split; assumption. Qed.

Section Claims_coordinates.
Import JS PdfJs AreaSelectionTool Notions.
Import PDFViewer(drawSelectionBoxes, forEachArea, areaRect, strokedRects, filledRects).

(** The viewer mounts the tool with its own canvas, document, page and scale,
    and with no rotation. *)
Lemma toolProps_of_viewer (v : PDFViewer.State) :
  PDFViewer.toolProps v
  = mkProps (PDFViewer.canvasRef v) (PDFViewer.pdfDoc v) (PDFViewer.pageNumber v)
            (PDFViewer.scale v) None (PDFViewer.isSelectionMode v).
Proof. reflexivity. Qed.

(** C1.  In the viewer, a drag rectangle released on the current page under a
    configuration (scale, rotation) is converted to PDF points by
    [handleMouseUp]; the redraw of the overlay under the same configuration
    (same page, same scale, the display viewport being the one the tool used)
    converts the stored rectangle back and strokes and fills, after the
    rectangles drawn before, a rectangle equal to the drag rectangle.  Numbers
    are exact rationals, so the tolerance is zero; the viewports must have
    non-zero sides. *)
Theorem drag_rectangle_round_trip :
  forall (host : Host) (v : PDFViewer.State) (rotation : option number)
         (sp cp : Point) (doc : PDFDocument) (pg : PDFPage),
    PDFViewer.documentMounted v = true ->
    PDFViewer.selectionContext2d v = true ->
    PDFViewer.pdfDoc v = Some doc ->
    getPage doc (PDFViewer.pageNumber v) = Normal pg ->
    getViewport pg (mkParams (PDFViewer.scale v) rotation)
    = getViewport pg (mkParams (PDFViewer.scale v) None) ->
    ~ vp_width (getViewport pg (mkParams 1.0 None)) == 0 ->
    ~ vp_height (getViewport pg (mkParams 1.0 None)) == 0 ->
    ~ vp_width (getViewport pg (mkParams (PDFViewer.scale v) None)) == 0 ->
    ~ vp_height (getViewport pg (mkParams (PDFViewer.scale v) None)) == 0 ->
    largeEnough (dragRect sp cp) ->
    exists area r,
      handleMouseUp host
        (mkProps (PDFViewer.canvasRef v) (PDFViewer.pdfDoc v) (PDFViewer.pageNumber v)
                 (PDFViewer.scale v) rotation (PDFViewer.isSelectionMode v))
        (mkState true (Some sp) (Some cp))
      = mkOutcome idle (Some area) /\
      strokedRects (drawSelectionBoxes (PDFViewer.handleAreaSelected area v))
      = strokedRects (drawSelectionBoxes v) ++ [r] /\
      filledRects (drawSelectionBoxes (PDFViewer.handleAreaSelected area v))
      = filledRects (drawSelectionBoxes v) ++ [r] /\
      sameRect r (dragRect sp cp).
Proof.
  intros host v rotation sp cp doc pg Hm Hctx Hdoc Hpg Hsame Hpw Hph Hcw Hch Hlarge.
  set (props := mkProps (PDFViewer.canvasRef v) (PDFViewer.pdfDoc v) (PDFViewer.pageNumber v)
                        (PDFViewer.scale v) rotation (PDFViewer.isSelectionMode v)).
  set (pv := getViewport pg (mkParams 1.0 None)) in *.
  set (cv := getViewport pg (mkParams (PDFViewer.scale v) None)) in *.
  exists (builtArea host props doc sp cp pg).
  exists (areaRect pv cv (builtArea host props doc sp cp pg)).
  assert (Hon : onPage (PDFViewer.pageNumber v) (builtArea host props doc sp cp pg) = true)
    by apply Z.eqb_refl.
  assert (Hdraw : forall v', PDFViewer.documentMounted v' = true ->
            PDFViewer.selectionContext2d v' = true -> PDFViewer.pdfDoc v' = Some doc ->
            PDFViewer.pageNumber v' = PDFViewer.pageNumber v ->
            PDFViewer.scale v' = PDFViewer.scale v ->
            strokedRects (drawSelectionBoxes v')
            = map (areaRect pv cv)
                  (filter (onPage (PDFViewer.pageNumber v)) (PDFViewer.selectedAreas v'))
            /\ filledRects (drawSelectionBoxes v')
            = map (areaRect pv cv)
                  (filter (onPage (PDFViewer.pageNumber v)) (PDFViewer.selectedAreas v'))).
  { intros v' Hm' Hctx' Hdoc' Hpage' Hscale'.
    assert (Hpg' : getPage doc (PDFViewer.pageNumber v') = Normal pg) by now rewrite Hpage'.
    rewrite (drawSelectionBoxes_running v' Hm' Hctx' Hdoc' Hpg').
    rewrite strokedRects_app, filledRects_app, strokedRects_areas, filledRects_areas.
    rewrite Hpage', Hscale'. split; reflexivity. }
  destruct (Hdraw v Hm Hctx Hdoc eq_refl eq_refl) as [Hs Hf].
  destruct (Hdraw (PDFViewer.handleAreaSelected (builtArea host props doc sp cp pg) v)
                  Hm Hctx Hdoc eq_refl eq_refl) as [Hs' Hf'].
  cbn [PDFViewer.handleAreaSelected PDFViewer.setSelectedAreas PDFViewer.selectedAreas] in Hs', Hf'.
  rewrite filter_app in Hs', Hf'. cbn [filter] in Hs', Hf'.
  rewrite Hon, map_app in Hs', Hf'.
  split; [|split; [|split]].
  - apply release_page_found with (canvas := PDFViewer.canvas v); try reflexivity; try assumption.
    unfold props, PDFViewer.canvasRef. cbn [canvasRef]. rewrite Hm. reflexivity.
  - rewrite Hs', Hs. reflexivity.
  - rewrite Hf', Hf. reflexivity.
  - unfold sameRect, areaRect, builtArea.
    cbn [position pdfX pdfY pdfWidth pdfHeight rect_x rect_y rect_width rect_height
         scale AreaSelectionTool.rotation props].
    unfold props. cbn [scale AreaSelectionTool.rotation].
    rewrite Hsame. fold pv cv.
    repeat split; apply rescale_round_trip; assumption.
Qed.

(** A 100 x 50 drag on the sample page shown at 150%. *)
Lemma drag_rectangle_round_trip_witness :
  exists area r,
    handleMouseUp Sample.host
      (mkProps (Some Sample.canvas) (Some (Sample.document Sample.page1)) 1 1.5 None true)
      (mkState true (Some (mkPoint 100 100)) (Some (mkPoint 200 150)))
    = mkOutcome idle (Some area) /\
    strokedRects
      (drawSelectionBoxes
         (PDFViewer.handleAreaSelected area
            (Sample.viewer (Sample.document Sample.page1) 1 1.5 [] None true
                           (Sample.dragging 100 100 200 150))))
    = [] ++ [r] /\
    filledRects
      (drawSelectionBoxes
         (PDFViewer.handleAreaSelected area
            (Sample.viewer (Sample.document Sample.page1) 1 1.5 [] None true
                           (Sample.dragging 100 100 200 150))))
    = [] ++ [r] /\
    sameRect r (mkRect 100 100 100 50).
Proof.
  apply (@drag_rectangle_round_trip Sample.host
           (Sample.viewer (Sample.document Sample.page1) 1 1.5 [] None true
                          (Sample.dragging 100 100 200 150))
           None (mkPoint 100 100) (mkPoint 200 150)
           (Sample.document Sample.page1) Sample.page1
           eq_refl eq_refl eq_refl eq_refl eq_refl);
    try (intro H; vm_compute in H; discriminate).
  split; reflexivity.
Defined.

(** The hypothesis on the display viewport cannot be dropped: were the tool
    given a quarter turn that the redraw, which takes no rotation, does not
    see, the stored rectangle would come back at another place. *)
Example rotation_unseen_by_redraw :
  exists area,
    emitted (handleMouseUp Sample.host
               (mkProps (Some Sample.canvas) (Some (Sample.document Sample.page1)) 1 1
                        (Some 90) true)
               (Sample.dragging 100 100 200 150)) = Some area /\
    ~ sameRect (areaRect (Sample.letterViewport (mkParams 1.0 None))
                         (Sample.letterViewport (mkParams 1 None)) area)
               (mkRect 100 100 100 50).
Proof.
  eexists. split; [reflexivity|].
  intros (Hx & _). vm_compute in Hx. discriminate.
Qed.

(** C2, as the code has it.  The stored position is the drag rectangle rescaled
    from canvas pixels to PDF points, measured from the top-left corner like
    the canvas: no Y flip is applied to it.  The flip
    [y' = pdfViewport.height - pdfY - pdfHeight] is applied once, to the
    rectangle handed to text extraction only.  The redraw rescales the stored
    rectangle back to canvas pixels, again without a flip. *)
Theorem stored_rectangle_is_rescaled_without_flip :
  forall (host : Host) (props : Props) (st : State) (sp cp : Point)
         (canvas : Canvas) (doc : PDFDocument) (pg : PDFPage),
    isSelecting st = true -> startPos st = Some sp -> currentPos st = Some cp ->
    canvasRef props = Some canvas -> pdfDoc props = Some doc ->
    getPage doc (currentPage props) = Normal pg ->
    largeEnough (dragRect sp cp) ->
    let pv := getViewport pg (mkParams 1.0 None) in
    let cv := getViewport pg (mkParams (scale props) (rotation props)) in
    exists area,
      emitted (handleMouseUp host props st) = Some area /\
      pdfX (position area) = rect_x (dragRect sp cp) / vp_width cv * vp_width pv /\
      pdfY (position area) = rect_y (dragRect sp cp) / vp_height cv * vp_height pv /\
      pdfWidth (position area) = rect_width (dragRect sp cp) / vp_width cv * vp_width pv /\
      pdfHeight (position area) = rect_height (dragRect sp cp) / vp_height cv * vp_height pv /\
      text area
      = or_else
          (extractTextFromArea host (Some doc)
             (mkTextArea (pdfX (position area))
                         (vp_height pv - pdfY (position area) - pdfHeight (position area))
                         (pdfWidth (position area)) (pdfHeight (position area))
                         (currentPage props)))
          noTextDetected /\
      (forall (current : Viewport) (highlighted : option SelectedArea),
          strokedRects (forEachArea pv current highlighted area)
          = [mkRect (pdfX (position area) / vp_width pv * vp_width current)
                    (pdfY (position area) / vp_height pv * vp_height current)
                    (pdfWidth (position area) / vp_width pv * vp_width current)
                    (pdfHeight (position area) / vp_height pv * vp_height current)]).
Proof.
  intros host props st sp cp canvas doc pg Hsel Hs Hc Hcv Hdoc Hpg Hlarge pv cv.
  exists (builtArea host props doc sp cp pg).
  split.
  - erewrite release_page_found; eauto. reflexivity.
  - repeat split; reflexivity.
Qed.

(** A 100 x 50 drag whose top edge is 100 pixels below the top of the sample
    page at scale 1: the stored [pdfY] is 100. *)
Lemma stored_rectangle_is_rescaled_without_flip_witness :
  exists area,
    emitted (handleMouseUp Sample.host (Sample.props (Some (Sample.document Sample.page1)))
                           (Sample.dragging 100 100 200 150)) = Some area /\
    pdfY (position area) = 100 / (792 * 1) * (792 * 1.0).
Proof.
  destruct (stored_rectangle_is_rescaled_without_flip Sample.host
              (Sample.props (Some (Sample.document Sample.page1)))
              (Sample.dragging 100 100 200 150)
              (sp := mkPoint 100 100) (cp := mkPoint 200 150)
              (canvas := Sample.canvas) (doc := Sample.document Sample.page1)
              (pg := Sample.page1)
              eq_refl eq_refl eq_refl eq_refl eq_refl eq_refl (conj eq_refl eq_refl))
    as (area & Hemit & _ & Hy & _).
  exists area. split; [exact Hemit | exact Hy].
Defined.

(** C2 as stated fails.  For that drag a bottom-left origin would put the stored
    rectangle at [y = 792 - 100 - 50 = 642]; the code stores [y = 100], and the
    redraw at the same scale strokes it at [y = 100] with no inverse flip. *)
Lemma stored_rectangle_is_not_flipped :
  exists area r,
    emitted (handleMouseUp Sample.host (Sample.props (Some (Sample.document Sample.page1)))
                           (Sample.dragging 100 100 200 150)) = Some area /\
    pdfY (position area) == 100 /\
    ~ pdfY (position area) == 792 - 100 - 50 /\
    strokedRects (forEachArea (Sample.letterViewport (mkParams 1.0 None))
                              (Sample.letterViewport (mkParams 1 None)) None area) = [r] /\
    rect_y r == 100 /\
    ~ rect_y r == 792 - pdfY (position area) - pdfHeight (position area).
Proof.
  eexists. eexists. split; [reflexivity|].
  split; [reflexivity|]. split; [intro H; vm_compute in H; discriminate|].
  split; [reflexivity|]. split; [reflexivity|].
  intro H; vm_compute in H; discriminate.
Qed.

End Claims_coordinates.

(** *** The area list *)

Section Claims_list.
Import JS PdfJs AreaSelectionTool Notions.
Import PDFViewer(handleAreaSelected, handleAreaRemove, handleClearAllAreas, selectedAreas).

Lemma filter_RemovedById (areaId : string) (areas : list SelectedArea) :
  RemovedById areaId areas
              (filter (fun area => negb (String.eqb (id area) areaId)) areas).
Proof.
  induction areas as [|area areas IH]; cbn [filter]; [constructor|].
  destruct (String.eqb_spec (id area) areaId) as [Heq|Hneq]; cbn [negb].
  - now apply removed_drop.
  - now apply removed_keep.
Qed.

(** C10.  Adding an area appends it at the end of the list and leaves the
    elements already there at their places; removing by id deletes exactly the
    elements with that id and keeps all others, unchanged and in their order.
    Neither touches anything else in the viewer's state. *)
Theorem area_list_add_and_remove :
  forall (v : PDFViewer.State),
    (forall area,
        selectedAreas (handleAreaSelected area v) = selectedAreas v ++ [area] /\
        (forall n, (n < List.length (selectedAreas v))%nat ->
                   nth_error (selectedAreas (handleAreaSelected area v)) n
                   = nth_error (selectedAreas v) n) /\
        nth_error (selectedAreas (handleAreaSelected area v)) (List.length (selectedAreas v))
        = Some area /\
        sameButAreas v (handleAreaSelected area v))
    /\
    (forall areaId,
        RemovedById areaId (selectedAreas v) (selectedAreas (handleAreaRemove areaId v)) /\
        (forall area, In area (selectedAreas (handleAreaRemove areaId v)) <->
                      In area (selectedAreas v) /\ id area <> areaId) /\
        sameButAreas v (handleAreaRemove areaId v)).
Proof.
  intros v. split.
  - intros area. cbn [handleAreaSelected PDFViewer.setSelectedAreas selectedAreas].
    split; [reflexivity|]. split; [|split].
    + intros n Hn. now apply nth_error_app1.
    + rewrite nth_error_app2 by apply Nat.le_refl. now rewrite Nat.sub_diag.
    + destruct v; reflexivity.
  - intros areaId. cbn [handleAreaRemove PDFViewer.setSelectedAreas selectedAreas].
    split; [apply filter_RemovedById|]. split.
    + intros area. rewrite filter_In, negb_true_iff.
      destruct (String.eqb_spec (id area) areaId); intuition congruence.
    + destruct v; reflexivity.
Qed.

End Claims_list.

(** *** The highlighted area *)

Section Highlight.
Import JS PdfJs AreaSelectionTool Notions.
Import PDFViewer(selectedAreas, highlightedArea, step, run).

(** Removing through the list: what happens to the list and to the highlight. *)
Lemma list_remove_effect (v : PDFViewer.State) (areaId : string) :
  let v' := SelectedAreasList.handleAreaRemove (PDFViewer.listProps v) areaId v in
  selectedAreas v' = filter (fun area => negb (String.eqb (id area) areaId)) (selectedAreas v)
  /\ highlightedArea v'
     = if SelectedAreasList.highlightedIs (highlightedArea v) areaId
       then None else highlightedArea v.
Proof.
  cbn. unfold SelectedAreasList.handleAreaRemove. cbn.
  destruct (SelectedAreasList.highlightedIs (highlightedArea v) areaId); split; reflexivity.
Qed.

Lemma list_remove_keeps_highlight_listed (v : PDFViewer.State) (areaId : string) :
  highlightListed v ->
  highlightListed (SelectedAreasList.handleAreaRemove (PDFViewer.listProps v) areaId v).
Proof.
  intros Hinv. unfold highlightListed in *.
  destruct (list_remove_effect v areaId) as [Hl Hh]. cbv zeta in Hl, Hh.
  rewrite Hl, Hh.
  destruct (highlightedArea v) as [h|]; cbn [SelectedAreasList.highlightedIs]; [|exact I].
  destruct (String.eqb (id h) areaId) eqn:E; [exact I|].
  apply filter_In. split; [exact Hinv|]. now rewrite E.
Qed.

(** Every event keeps the highlighted area among the listed ones. *)
Lemma step_keeps_highlight_listed (host : Host) (v : PDFViewer.State) (e : PDFViewer.Event) :
  highlightListed v -> highlightListed (fst (step host v e)).
Proof.
  intros Hinv. destruct e; unfold step.
  - destruct loaded; exact Hinv.
  - destruct (_ && _); [|exact Hinv]. unfold PDFViewer.goToPreviousPage.
    destruct (Z.ltb _ _); exact Hinv.
  - destruct (_ && _); [|exact Hinv]. unfold PDFViewer.goToNextPage.
    destruct (Z.ltb _ _); exact Hinv.
  - destruct (_ && _); exact Hinv.
  - destruct (_ && _); exact Hinv.
  - destruct (PDFViewer.toolbarMounted v); exact Hinv.
  - destruct (PDFViewer.overlayMounted v); exact Hinv.
  - destruct (PDFViewer.overlayMounted v); exact Hinv.
  - destruct (PDFViewer.overlayMounted v); [|exact Hinv].
    destruct (emitted _); [|exact Hinv].
    unfold highlightListed in *. cbn.
    destruct (highlightedArea v); [|exact I]. apply in_or_app. now left.
  - destruct (PDFViewer.overlayMounted v); [|exact Hinv].
    destruct (emitted _); [|exact Hinv].
    unfold highlightListed in *. cbn.
    destruct (highlightedArea v); [|exact I]. apply in_or_app. now left.
  - destruct (PDFViewer.toolbarMounted v); [|exact Hinv].
    destruct (nth_error (selectedAreas v) n) as [area|] eqn:E; [|exact Hinv].
    unfold highlightListed. cbn. eapply nth_error_In; eauto.
  - destruct (PDFViewer.toolbarMounted v); [|exact Hinv].
    destruct (nth_error (selectedAreas v) n) as [area|] eqn:E; [|exact Hinv].
    cbn [fst]. now apply list_remove_keeps_highlight_listed.
  - destruct (PDFViewer.toolbarMounted v); [|exact Hinv].
    destruct (selectedAreas v); [exact Hinv|]. exact I.
Qed.

Lemma run_keeps_highlight_listed (trace : list (Host * PDFViewer.Event)) :
  forall v, highlightListed v -> highlightListed (fst (run v trace)).
Proof.
  induction trace as [|[host e] trace IH]; intros v Hinv; [exact Hinv|].
  cbn [run]. pose proof (step_keeps_highlight_listed host v e Hinv) as Hstep.
  destruct (step host v e) as [v1 out]. specialize (IH v1 Hstep).
  destruct (run v1 trace) as [v2 outs]. exact IH.
Qed.

End Highlight.

Section Claims_highlight.
Import JS PdfJs AreaSelectionTool Notions.
Import PDFViewer(selectedAreas, highlightedArea, step, run, listProps).

(** C9.  The highlighted area is a single optional reference, and through every
    sequence of events it stays one of the listed areas (from the initial
    state on, where nothing is highlighted).  Removing, through the list, the
    id of the highlighted area clears the highlight; removing any other id
    leaves the highlight as it was; clearing all areas empties the list and
    clears the highlight, whatever the state before. *)
Theorem highlight_follows_the_list :
  forall (v : PDFViewer.State),
    (forall trace, highlightListed v -> highlightListed (fst (run v trace)))
    /\ (forall c ctx trace, highlightListed (fst (run (PDFViewer.initial c ctx) trace)))
    /\ (forall h, highlightedArea v = Some h ->
                  highlightedArea (SelectedAreasList.handleAreaRemove (listProps v) (id h) v)
                  = None)
    /\ (forall areaId,
           (forall h, highlightedArea v = Some h -> id h <> areaId) ->
           highlightedArea (SelectedAreasList.handleAreaRemove (listProps v) areaId v)
           = highlightedArea v)
    /\ highlightedArea (SelectedAreasList.handleClearAll (listProps v) v) = None
    /\ selectedAreas (SelectedAreasList.handleClearAll (listProps v) v) = [].
Proof.
  intros v. split; [|split; [|split; [|split; [|split]]]].
  - intros trace. apply run_keeps_highlight_listed.
  - intros c ctx trace. apply run_keeps_highlight_listed. exact I.
  - intros h Hh. destruct (list_remove_effect v (id h)) as [_ Heff]. cbv zeta in Heff.
    rewrite Heff, Hh. cbn. now rewrite String.eqb_refl.
  - intros areaId Hother. destruct (list_remove_effect v areaId) as [_ Heff].
    cbv zeta in Heff. rewrite Heff.
    destruct (highlightedArea v) as [h|] eqn:Hh; [|reflexivity].
    cbn. destruct (String.eqb_spec (id h) areaId) as [Heq|Hneq]; [|reflexivity].
    exfalso. exact (Hother h eq_refl Heq).
  - reflexivity.
  - reflexivity.
Qed.

(** Two listed areas with the first highlighted: removing "a1" clears the
    highlight, removing "a2" keeps it. *)
Lemma highlight_follows_the_list_witness :
  highlightedArea
    (SelectedAreasList.handleAreaRemove
       (listProps (Sample.viewer Sample.book 1 1
                     [Sample.area "a1" 1 10 20 30 40; Sample.area "a2" 2 50 60 70 80]
                     (Some (Sample.area "a1" 1 10 20 30 40)) false idle))
       "a1"
       (Sample.viewer Sample.book 1 1
          [Sample.area "a1" 1 10 20 30 40; Sample.area "a2" 2 50 60 70 80]
          (Some (Sample.area "a1" 1 10 20 30 40)) false idle))
  = None
  /\
  highlightedArea
    (SelectedAreasList.handleAreaRemove
       (listProps (Sample.viewer Sample.book 1 1
                     [Sample.area "a1" 1 10 20 30 40; Sample.area "a2" 2 50 60 70 80]
                     (Some (Sample.area "a1" 1 10 20 30 40)) false idle))
       "a2"
       (Sample.viewer Sample.book 1 1
          [Sample.area "a1" 1 10 20 30 40; Sample.area "a2" 2 50 60 70 80]
          (Some (Sample.area "a1" 1 10 20 30 40)) false idle))
  = Some (Sample.area "a1" 1 10 20 30 40).
Proof.
  destruct (highlight_follows_the_list
              (Sample.viewer Sample.book 1 1
                 [Sample.area "a1" 1 10 20 30 40; Sample.area "a2" 2 50 60 70 80]
                 (Some (Sample.area "a1" 1 10 20 30 40)) false idle))
    as (_ & _ & Hsame & Hother & _).
  split.
  - exact (Hsame (Sample.area "a1" 1 10 20 30 40) eq_refl).
  - apply (Hother "a2"%string). intros h Hh. injection Hh as <-. discriminate.
Defined.

End Claims_highlight.

Section Claims_list_witness.
Import JS PdfJs AreaSelectionTool Notions.
Import PDFViewer(handleAreaSelected, handleAreaRemove, selectedAreas).

(** Adding "a3" to a list of two keeps the second; removing "a1" deletes the
    first. *)
Lemma area_list_add_and_remove_witness :
  nth_error
    (selectedAreas
       (handleAreaSelected (Sample.area "a3" 1 1 2 3 4)
          (Sample.viewer Sample.book 1 1
             [Sample.area "a1" 1 10 20 30 40; Sample.area "a2" 2 50 60 70 80]
             None false idle))) 1
  = Some (Sample.area "a2" 2 50 60 70 80)
  /\
  (In (Sample.area "a2" 2 50 60 70 80)
      (selectedAreas
         (handleAreaRemove "a1"
            (Sample.viewer Sample.book 1 1
               [Sample.area "a1" 1 10 20 30 40; Sample.area "a2" 2 50 60 70 80]
               None false idle)))).
Proof.
  destruct (area_list_add_and_remove
              (Sample.viewer Sample.book 1 1
                 [Sample.area "a1" 1 10 20 30 40; Sample.area "a2" 2 50 60 70 80]
                 None false idle)) as [Hadd Hremove].
  split.
  - destruct (Hadd (Sample.area "a3" 1 1 2 3 4)) as (_ & Hnth & _).
    rewrite (Hnth 1%nat); [reflexivity | cbn; lia].
  - destruct (Hremove "a1"%string) as (_ & Hin & _).
    apply Hin. split; [right; left; reflexivity | discriminate].
Defined.

End Claims_list_witness.

(** *** Selection mode and the overlay *)

Section Claims_toggle.
Import JS PdfJs AreaSelectionTool Notions.
Import PDFViewer(step, run, ToggleSelectionMode, MouseDown, MouseMove, MouseUp, MouseLeave).

(** With the overlay not mounted, pointer events reach no handler. *)
Lemma pointer_events_without_overlay (trace : list (Host * PDFViewer.Event)) :
  forall v, PDFViewer.overlayMounted v = false ->
            Forall (fun he => isPointerEvent (snd he) = true) trace ->
            run v trace = (v, []).
Proof.
  induction trace as [|[host e] trace IH]; intros v Hoff Hes; [reflexivity|].
  inversion Hes as [|he' es' He Hes']; subst. cbn [snd] in He.
  assert (Hstep : step host v e = (v, None)).
  { destruct e; try discriminate He; unfold step; rewrite Hoff; reflexivity. }
  cbn [run]. rewrite Hstep, (IH v Hoff Hes'). reflexivity.
Qed.

(** C8, as the code has it.  Toggling selection mode off unmounts the overlay:
    from then on, while the mode stays off, pointer events (the pointer-up
    included) reach no handler, so no area is emitted and nothing changes,
    whatever the size of the drag.  The drag is not cancelled: the tool keeps
    its anchor and current point. *)
Theorem toggle_off_silences_the_overlay :
  forall (host : Host) (v : PDFViewer.State) (trace : list (Host * PDFViewer.Event)),
    PDFViewer.toolbarMounted v = true ->
    PDFViewer.isSelectionMode v = true ->
    Forall (fun he => isPointerEvent (snd he) = true) trace ->
    step host v ToggleSelectionMode = (PDFViewer.setIsSelectionMode false v, None) /\
    run (PDFViewer.setIsSelectionMode false v) trace
    = (PDFViewer.setIsSelectionMode false v, []) /\
    PDFViewer.tool (PDFViewer.setIsSelectionMode false v) = PDFViewer.tool v /\
    PDFViewer.selectedAreas (PDFViewer.setIsSelectionMode false v)
    = PDFViewer.selectedAreas v.
Proof.
  intros host v trace Hbar Hmode Hes. split; [|split; [|split]].
  - unfold step. rewrite Hbar, Hmode. reflexivity.
  - apply pointer_events_without_overlay; [|exact Hes].
    unfold PDFViewer.overlayMounted. cbn [PDFViewer.setIsSelectionMode PDFViewer.isSelectionMode].
    apply andb_false_r.
  - reflexivity.
  - reflexivity.
Qed.

(** A large drag in progress on the sample page, selection mode switched off:
    the pointer-up that follows emits nothing. *)
Lemma toggle_off_silences_the_overlay_witness :
  run (PDFViewer.setIsSelectionMode false
         (Sample.viewer (Sample.document Sample.page1) 1 1 [] None true
                        (Sample.dragging 100 100 200 150)))
      (Sample.events [MouseMove 300 300; MouseUp])
  = (PDFViewer.setIsSelectionMode false
       (Sample.viewer (Sample.document Sample.page1) 1 1 [] None true
                      (Sample.dragging 100 100 200 150)), []).
Proof.
  destruct (@toggle_off_silences_the_overlay Sample.host
              (Sample.viewer (Sample.document Sample.page1) 1 1 [] None true
                             (Sample.dragging 100 100 200 150))
              (Sample.events [MouseMove 300 300; MouseUp]) eq_refl eq_refl)
    as (_ & Hrun & _).
  - repeat constructor.
  - exact Hrun.
Defined.

(** C8 as stated fails: the drag begun before the toggle is still in progress
    after it, and a pointer-up after selection mode is switched on again, with
    no new pointer-down, emits an area for it. *)
Lemma drag_survives_toggle_off :
  isSelecting
    (PDFViewer.tool
       (fst (run (Sample.viewer (Sample.document Sample.page1) 1 1 [] None true idle)
                 (Sample.events
                    [MouseDown 100 100; MouseMove 200 150; ToggleSelectionMode]))))
  = true
  /\
  snd (run (Sample.viewer (Sample.document Sample.page1) 1 1 [] None true idle)
           (Sample.events
              [MouseDown 100 100; MouseMove 200 150; ToggleSelectionMode; MouseUp]))
  = []
  /\
  exists area,
    snd (run (Sample.viewer (Sample.document Sample.page1) 1 1 [] None true idle)
             (Sample.events
                [MouseDown 100 100; MouseMove 200 150; ToggleSelectionMode; MouseUp;
                 ToggleSelectionMode; MouseUp]))
    = [area]
    /\ canvasX (position area) = Some ((100 - 0) * (612 / 612))
    /\ canvasWidth (position area)
       = Some (Qabs ((200 - 0) * (612 / 612) - (100 - 0) * (612 / 612))).
Proof.
  split; [reflexivity|]. split; [reflexivity|].
  eexists. split; [reflexivity|]. split; reflexivity.
Qed.

End Claims_toggle.

(** ** Further properties *)

(** *** The drag rectangle and the pointer position *)

Section Gesture_geometry.
Import JS PdfJs AreaSelectionTool Notions.

Lemma interval_of_two (a b : Q) :
  0 <= Qabs (b - a) /\
  (Qmin a b <= a /\ a <= Qmin a b + Qabs (b - a)) /\
  (Qmin a b <= b /\ b <= Qmin a b + Qabs (b - a)) /\
  Qmin a b == Qmin b a /\ Qabs (b - a) == Qabs (a - b).
Proof.
  destruct (Q.min_spec a b) as [[Hlt Hm]|[Hle Hm]];
    destruct (Q.min_spec b a) as [[Hlt' Hm']|[Hle' Hm']];
    rewrite ?Hm, ?Hm';
    (apply (Qabs_case (b - a)); intros H1);
    (apply (Qabs_case (a - b)); intros H2);
    repeat split; try lra.
Qed.

(** X1.  The rectangle computed from the press point and the current point is
    their bounding box: its sides are not negative, both points lie within it,
    and dragging from the second point to the first gives the same rectangle. *)
Theorem drag_rectangle_is_bounding_box :
  forall (sp cp : Point),
    0 <= rect_width (dragRect sp cp) /\ 0 <= rect_height (dragRect sp cp) /\
    (rect_x (dragRect sp cp) <= pt_x sp <= rect_x (dragRect sp cp) + rect_width (dragRect sp cp)) /\
    (rect_x (dragRect sp cp) <= pt_x cp <= rect_x (dragRect sp cp) + rect_width (dragRect sp cp)) /\
    (rect_y (dragRect sp cp) <= pt_y sp <= rect_y (dragRect sp cp) + rect_height (dragRect sp cp)) /\
    (rect_y (dragRect sp cp) <= pt_y cp <= rect_y (dragRect sp cp) + rect_height (dragRect sp cp)) /\
    sameRect (dragRect sp cp) (dragRect cp sp).
Proof.
  intros sp cp. unfold dragRect, sameRect, Math_min, Math_abs; cbn.
  destruct (interval_of_two (pt_x sp) (pt_x cp)) as (Hw & Hxs & Hxc & Hmx & Hax).
  destruct (interval_of_two (pt_y sp) (pt_y cp)) as (Hh & Hys & Hyc & Hmy & Hay).
  repeat split; try tauto.
Qed.

(** X2.  With the canvas mounted and a bounding box of non-zero size, the
    pointer position is mapped to canvas pixels so that the top-left corner of
    the element is the origin and its bottom-right corner is the canvas size;
    when the element is displayed at the size of its bitmap, the mapping is the
    translation by the element's offset. *)
Theorem canvas_coordinates_are_calibrated :
  forall (props : Props) (canvas : Canvas),
    canvasRef props = Some canvas ->
    ~ cv_clientWidth canvas == 0 -> ~ cv_clientHeight canvas == 0 ->
    pt_x (getCanvasCoordinates props (cv_left canvas) (cv_top canvas)) == 0 /\
    pt_y (getCanvasCoordinates props (cv_left canvas) (cv_top canvas)) == 0 /\
    pt_x (getCanvasCoordinates props (cv_left canvas + cv_clientWidth canvas)
                               (cv_top canvas + cv_clientHeight canvas))
    == cv_width canvas /\
    pt_y (getCanvasCoordinates props (cv_left canvas + cv_clientWidth canvas)
                               (cv_top canvas + cv_clientHeight canvas))
    == cv_height canvas /\
    (cv_clientWidth canvas == cv_width canvas ->
     cv_clientHeight canvas == cv_height canvas ->
     forall clientX clientY,
       pt_x (getCanvasCoordinates props clientX clientY) == clientX - cv_left canvas /\
       pt_y (getCanvasCoordinates props clientX clientY) == clientY - cv_top canvas).
Proof.
  intros props canvas Hcv Hw Hh. unfold getCanvasCoordinates. rewrite Hcv. cbn.
  split; [field; exact Hw|]. split; [field; exact Hh|].
  split; [field; exact Hw|]. split; [field; exact Hh|].
  intros Hsame_w Hsame_h clientX clientY. split.
  - rewrite <- Hsame_w. field. exact Hw.
  - rewrite <- Hsame_h. field. exact Hh.
Qed.

(** A canvas shown at half its bitmap size, 10 pixels in from the left. *)
Lemma canvas_coordinates_are_calibrated_witness :
  pt_x (getCanvasCoordinates
          (mkProps (Some (mkCanvas 612 792 10 20 306 396 (fun _ => ""%string)))
                   None 1 1 None true)
          (10 + 306) (20 + 396))
  == 612.
Proof.
  destruct (@canvas_coordinates_are_calibrated
              (mkProps (Some (mkCanvas 612 792 10 20 306 396 (fun _ => ""%string)))
                       None 1 1 None true)
              (mkCanvas 612 792 10 20 306 396 (fun _ => ""%string))
              eq_refl) as (_ & _ & Hx & _).
  - intro H; vm_compute in H; discriminate.
  - intro H; vm_compute in H; discriminate.
  - exact Hx.
Defined.

End Gesture_geometry.

(** *** The course of a gesture *)

Section Gesture_course.
Import JS PdfJs AreaSelectionTool Notions Invariants.

Lemma last_cons_default (A : Type) (l : list A) :
  forall x d, last (x :: l) d = last l x.
Proof.
  induction l as [|y l IH]; intros x d; [reflexivity|].
  change (last (x :: y :: l) d) with (last (y :: l) d).
  rewrite (IH y d), (IH y x). reflexivity.
Qed.

(** Pointer moves during a drag replace the current point and nothing else. *)
Lemma moves_keep_the_anchor (props : Props) (sp : Point)
      (moves : list (number * number)) :
  forall cp,
    fold_left (fun st xy => handleMouseMove props st (fst xy) (snd xy)) moves
              (mkState true (Some sp) (Some cp))
    = mkState true (Some sp)
              (Some (last (map (fun xy => getCanvasCoordinates props (fst xy) (snd xy)) moves)
                          cp)).
Proof.
  induction moves as [|xy moves IH]; intros cp; [reflexivity|].
  cbn [fold_left]. unfold handleMouseMove at 2. cbn [isSelecting startPos].
  rewrite IH. cbn [map]. rewrite last_cons_default. reflexivity.
Qed.

(** X3.  In selection mode over a mounted canvas, a press followed by any number
    of moves leaves a drag in progress whose anchor is the pressed point and
    whose current point is the last point moved to (the pressed point when
    there was no move): the points passed in between leave no trace. *)
Theorem drag_keeps_press_and_last_move :
  forall (props : Props) (canvas : Canvas) (st : State)
         (x0 y0 : number) (moves : list (number * number)),
    isSelectionMode props = true ->
    canvasRef props = Some canvas ->
    fold_left (fun st xy => handleMouseMove props st (fst xy) (snd xy)) moves
              (handleMouseDown props st x0 y0)
    = mkState true (Some (getCanvasCoordinates props x0 y0))
              (Some (getCanvasCoordinates props (fst (last moves (x0, y0)))
                                          (snd (last moves (x0, y0))))).
Proof.
  intros props canvas st x0 y0 moves Hmode Hcv.
  unfold handleMouseDown. rewrite Hmode, Hcv. rewrite moves_keep_the_anchor.
  f_equal. f_equal.
  change (getCanvasCoordinates props x0 y0)
    with ((fun xy => getCanvasCoordinates props (fst xy) (snd xy)) (x0, y0)) at 1.
  generalize (x0, y0) as d.
  induction moves as [|xy moves IH]; intros d; [reflexivity|].
  cbn [map]. rewrite !last_cons_default. apply IH.
Qed.

(** A press at (100, 100) and moves through (500, 500) to (200, 150). *)
Lemma drag_keeps_press_and_last_move_witness :
  fold_left (fun st xy => handleMouseMove (Sample.props None) st (fst xy) (snd xy))
            [(500, 500); (200, 150)]
            (handleMouseDown (Sample.props None) idle 100 100)
  = mkState true (Some (getCanvasCoordinates (Sample.props None) 100 100))
            (Some (getCanvasCoordinates (Sample.props None) 200 150)).
Proof.
  exact (@drag_keeps_press_and_last_move (Sample.props None) Sample.canvas idle 100 100
           [(500, 500); (200, 150)] eq_refl eq_refl).
Defined.

(** Whatever is emitted was built from a drag in progress that passes the gate,
    with the document loaded and the page found. *)
Lemma emitted_is_built (host : Host) (props : Props) (st : State) (area : SelectedArea) :
  emitted (handleMouseUp host props st) = Some area ->
  exists sp cp doc pg,
    startPos st = Some sp /\ currentPos st = Some cp /\
    pdfDoc props = Some doc /\ getPage doc (currentPage props) = Normal pg /\
    largeEnough (dragRect sp cp) /\
    area = builtArea host props doc sp cp pg.
Proof.
  unfold handleMouseUp.
  destruct (isSelecting st); [|discriminate].
  destruct (startPos st) as [sp|]; [|discriminate].
  destruct (currentPos st) as [cp|]; [|discriminate].
  destruct (canvasRef props); [|discriminate].
  destruct (gt _ 10 && gt _ 10) eqn:G; [|discriminate].
  destruct (pdfDoc props) as [doc|] eqn:Hdoc; [|discriminate].
  destruct (getPage doc (currentPage props)) as [pg|] eqn:Hpg; [|discriminate].
  cbn. intros [= <-]. exists sp, cp, doc, pg.
  apply gate_true_iff in G. repeat split; try reflexivity; try assumption; apply G.
Qed.

(** X4.  Every area handed to [onAreaSelected] is on the page shown at the
    release, has a non-empty text, the host's timestamp, the screenshot of the
    drag rectangle, and records that rectangle, which is more than 10 pixels
    wide and high, as its canvas box. *)
Theorem emitted_area_records_the_drag :
  forall (host : Host) (props : Props) (st : State) (area : SelectedArea),
    emitted (handleMouseUp host props st) = Some area ->
    page (position area) = currentPage props /\
    text area <> ""%string /\
    timestamp area = Date_now_timestamp host /\
    exists sp cp,
      startPos st = Some sp /\ currentPos st = Some cp /\
      largeEnough (dragRect sp cp) /\
      screenshot area = captureScreenshot host props (dragRect sp cp) /\
      canvasX (position area) = Some (rect_x (dragRect sp cp)) /\
      canvasY (position area) = Some (rect_y (dragRect sp cp)) /\
      canvasWidth (position area) = Some (rect_width (dragRect sp cp)) /\
      canvasHeight (position area) = Some (rect_height (dragRect sp cp)).
Proof.
  intros host props st area Hemit.
  destruct (emitted_is_built host props st Hemit)
    as (sp & cp & doc & pg & Hs & Hc & Hdoc & Hpg & Hlarge & ->).
  split; [reflexivity|]. split; [apply or_else_nonempty; discriminate|].
  split; [reflexivity|].
  exists sp, cp. repeat split; try assumption; apply Hlarge.
Qed.

(** The 100 x 50 drag on the sample page. *)
Lemma emitted_area_records_the_drag_witness :
  page (position (builtArea Sample.host (Sample.props (Some (Sample.document Sample.page1)))
                            (Sample.document Sample.page1) (mkPoint 100 100)
                            (mkPoint 200 150) Sample.page1)) = 1%Z.
Proof.
  destruct (@emitted_area_records_the_drag Sample.host
              (Sample.props (Some (Sample.document Sample.page1)))
              (Sample.dragging 100 100 200 150)
              (builtArea Sample.host (Sample.props (Some (Sample.document Sample.page1)))
                         (Sample.document Sample.page1) (mkPoint 100 100)
                         (mkPoint 200 150) Sample.page1)
              eq_refl) as [Hpage _].
  exact Hpage.
Defined.

End Gesture_course.

(** *** Invariants of the viewer's state *)

Section Viewer_invariants.
Import JS PdfJs AreaSelectionTool Notions Invariants.
Import PDFViewer(step, run, selectedAreas, highlightedArea, tool, pageNumber, numPages).

(** A property kept by every event is kept by every sequence of events. *)
Lemma run_keeps (P : PDFViewer.State -> Prop) :
  (forall host v e, P v -> P (fst (step host v e))) ->
  forall trace v, P v -> P (fst (run v trace)).
Proof.
  intros Hstep trace. induction trace as [|[host e] trace IH]; intros v Hv; [exact Hv|].
  cbn [run]. pose proof (Hstep host v e Hv) as H1.
  destruct (step host v e) as [v1 out]. specialize (IH v1 H1).
  destruct (run v1 trace) as [v2 outs]. exact IH.
Qed.

Lemma mouse_up_next (host : Host) (props : Props) (st : State) :
  next (handleMouseUp host props st) = idle \/ next (handleMouseUp host props st) = st.
Proof.
  unfold handleMouseUp.
  destruct (isSelecting st); [|now left].
  destruct (startPos st); [|now left].
  destruct (currentPos st); [|now left].
  destruct (canvasRef props); [|now left].
  destruct (gt _ 10 && gt _ 10); [|now left].
  destruct (pdfDoc props) as [doc|]; [|now right].
  destruct (getPage doc (currentPage props)); now left.
Qed.

Lemma step_keeps_tool_consistent (host : Host) (v : PDFViewer.State) (e : PDFViewer.Event) :
  toolConsistent (tool v) -> toolConsistent (tool (fst (step host v e))).
Proof.
  intros Hinv. destruct e; unfold step.
  - destruct loaded; exact Hinv.
  - destruct (_ && _); [|exact Hinv]. unfold PDFViewer.goToPreviousPage.
    destruct (Z.ltb _ _); exact Hinv.
  - destruct (_ && _); [|exact Hinv]. unfold PDFViewer.goToNextPage.
    destruct (Z.ltb _ _); exact Hinv.
  - destruct (_ && _); exact Hinv.
  - destruct (_ && _); exact Hinv.
  - destruct (PDFViewer.toolbarMounted v); exact Hinv.
  - destruct (PDFViewer.overlayMounted v); [|exact Hinv]. cbn [fst PDFViewer.setTool tool].
    unfold handleMouseDown.
    destruct (isSelectionMode _); [|exact Hinv].
    destruct (canvasRef _); [|exact Hinv].
    right. eexists. eexists. reflexivity.
  - destruct (PDFViewer.overlayMounted v); [|exact Hinv]. cbn [fst PDFViewer.setTool tool].
    unfold handleMouseMove.
    destruct Hinv as [Hidle|(sp & cp & Hdrag)].
    + rewrite Hidle. left. reflexivity.
    + rewrite Hdrag. right. eexists. eexists. reflexivity.
  - destruct (PDFViewer.overlayMounted v); [|exact Hinv].
    destruct (mouse_up_next host (PDFViewer.toolProps v) (tool v)) as [Hn|Hn];
      destruct (emitted _); cbn [fst PDFViewer.setTool PDFViewer.handleAreaSelected
                                  PDFViewer.setSelectedAreas tool];
      rewrite Hn; first [now left | exact Hinv].
  - destruct (PDFViewer.overlayMounted v); [|exact Hinv].
    destruct (mouse_up_next host (PDFViewer.toolProps v) (tool v)) as [Hn|Hn];
      destruct (emitted _); cbn [fst PDFViewer.setTool PDFViewer.handleAreaSelected
                                  PDFViewer.setSelectedAreas tool];
      rewrite Hn; first [now left | exact Hinv].
  - destruct (PDFViewer.toolbarMounted v); [|exact Hinv].
    destruct (nth_error _ _); exact Hinv.
  - destruct (PDFViewer.toolbarMounted v); [|exact Hinv].
    destruct (nth_error _ _) as [area|]; [|exact Hinv].
    cbn [fst]. unfold SelectedAreasList.handleAreaRemove. cbn.
    destruct (SelectedAreasList.highlightedIs _ _); exact Hinv.
  - destruct (PDFViewer.toolbarMounted v); [|exact Hinv].
    destruct (selectedAreas v); exact Hinv.
Qed.

(** X5.  From the initial state on, through every sequence of events, the
    selection tool is either idle (not selecting, no points) or in a drag with
    both the anchor and the current point set: a half-set gesture never
    occurs. *)
Theorem tool_state_is_always_consistent :
  forall (c : Canvas) (ctx : bool) (trace : list (Host * PDFViewer.Event)),
    let t := tool (fst (run (PDFViewer.initial c ctx) trace)) in
    (isSelecting t = false /\ startPos t = None /\ currentPos t = None)
    \/ (isSelecting t = true /\ startPos t <> None /\ currentPos t <> None).
Proof.
  intros c ctx trace t.
  assert (Hinv : toolConsistent t).
  { apply (run_keeps (fun v => toolConsistent (tool v))).
    - intros host v e. apply step_keeps_tool_consistent.
    - left. reflexivity. }
  destruct Hinv as [->|(sp & cp & ->)].
  - left. repeat split.
  - right. repeat split; discriminate.
Qed.

End Viewer_invariants.

Section Viewer_invariants_list.
Import JS PdfJs AreaSelectionTool Notions Invariants.
Import PDFViewer(step, run, selectedAreas, highlightedArea, tool, pageNumber, numPages).

Lemma emitted_area_from_drag (host : Host) (props : Props) (st : State) (area : SelectedArea) :
  emitted (handleMouseUp host props st) = Some area -> areaFromDrag area.
Proof.
  intros Hemit.
  destruct (emitted_is_built host props st Hemit)
    as (sp & cp & doc & pg & _ & _ & _ & _ & Hlarge & ->).
  split; [apply or_else_nonempty; discriminate|].
  exists (rect_width (dragRect sp cp)), (rect_height (dragRect sp cp)).
  repeat split; apply Hlarge.
Qed.

Lemma Forall_filter_keeps (A : Type) (P : A -> Prop) (f : A -> bool) (l : list A) :
  Forall P l -> Forall P (filter f l).
Proof.
  intros H. apply Forall_forall. intros x Hx. apply filter_In in Hx.
  rewrite Forall_forall in H. apply H. apply Hx.
Qed.

Lemma step_keeps_areas_from_drag (host : Host) (v : PDFViewer.State) (e : PDFViewer.Event) :
  Forall areaFromDrag (selectedAreas v) ->
  Forall areaFromDrag (selectedAreas (fst (step host v e))).
Proof.
  intros Hinv. destruct e; unfold step.
  - destruct loaded; exact Hinv.
  - destruct (_ && _); [|exact Hinv]. unfold PDFViewer.goToPreviousPage.
    destruct (Z.ltb _ _); exact Hinv.
  - destruct (_ && _); [|exact Hinv]. unfold PDFViewer.goToNextPage.
    destruct (Z.ltb _ _); exact Hinv.
  - destruct (_ && _); exact Hinv.
  - destruct (_ && _); exact Hinv.
  - destruct (PDFViewer.toolbarMounted v); exact Hinv.
  - destruct (PDFViewer.overlayMounted v); exact Hinv.
  - destruct (PDFViewer.overlayMounted v); exact Hinv.
  - destruct (PDFViewer.overlayMounted v); [|exact Hinv].
    destruct (emitted _) as [area|] eqn:Hemit; [|exact Hinv].
    cbn. apply Forall_app. split; [exact Hinv|].
    constructor; [|constructor]. eapply emitted_area_from_drag; eauto.
  - destruct (PDFViewer.overlayMounted v); [|exact Hinv].
    destruct (emitted _) as [area|] eqn:Hemit; [|exact Hinv].
    cbn. apply Forall_app. split; [exact Hinv|].
    constructor; [|constructor]. eapply emitted_area_from_drag; eauto.
  - destruct (PDFViewer.toolbarMounted v); [|exact Hinv].
    destruct (nth_error _ _); exact Hinv.
  - destruct (PDFViewer.toolbarMounted v); [|exact Hinv].
    destruct (nth_error _ _) as [area|]; [|exact Hinv].
    cbn [fst]. destruct (list_remove_effect v (id area)) as [Hl _]. cbv zeta in Hl.
    rewrite Hl. now apply Forall_filter_keeps.
  - destruct (PDFViewer.toolbarMounted v); [|exact Hinv].
    destruct (selectedAreas v) eqn:E; [cbn [fst]; rewrite E; constructor|]. constructor.
Qed.

(** X6.  From the initial state on, every area in the list has a non-empty
    text and carries the canvas box of its drag, more than 10 pixels wide and
    more than 10 high: nothing else ever enters the list. *)
Theorem listed_areas_come_from_large_drags :
  forall (c : Canvas) (ctx : bool) (trace : list (Host * PDFViewer.Event)) (area : SelectedArea),
    In area (selectedAreas (fst (run (PDFViewer.initial c ctx) trace))) ->
    text area <> ""%string /\
    exists w h,
      canvasWidth (position area) = Some w /\ canvasHeight (position area) = Some h /\
      10 < w /\ 10 < h.
Proof.
  intros c ctx trace area Hin.
  assert (Hinv : Forall areaFromDrag (selectedAreas (fst (run (PDFViewer.initial c ctx) trace)))).
  { apply (run_keeps (fun v => Forall areaFromDrag (selectedAreas v))).
    - intros host v e. apply step_keeps_areas_from_drag.
    - constructor. }
  rewrite Forall_forall in Hinv. exact (Hinv area Hin).
Qed.

(** A file is chosen, selection mode switched on, and a 100 x 50 drag made. *)
Lemma listed_areas_come_from_large_drags_witness :
  exists area,
    selectedAreas
      (fst (run (PDFViewer.initial Sample.canvas true)
                (Sample.events
                   [PDFViewer.ChooseFile "a.pdf" (Normal (Sample.document Sample.page1));
                    PDFViewer.ToggleSelectionMode;
                    PDFViewer.MouseDown 100 100; PDFViewer.MouseMove 200 150;
                    PDFViewer.MouseUp])))
    = [area]
    /\ text area <> ""%string.
Proof.
  eexists. split; [reflexivity|].
  apply (@listed_areas_come_from_large_drags Sample.canvas true
           (Sample.events
              [PDFViewer.ChooseFile "a.pdf" (Normal (Sample.document Sample.page1));
               PDFViewer.ToggleSelectionMode;
               PDFViewer.MouseDown 100 100; PDFViewer.MouseMove 200 150;
               PDFViewer.MouseUp])).
  left. reflexivity.
Defined.

End Viewer_invariants_list.

Section Viewer_invariants_view.
Import JS PdfJs AreaSelectionTool Notions Invariants.
Import PDFViewer(step, run, selectedAreas, highlightedArea, tool, pageNumber, numPages, scale).

Lemma step_keeps_page_in_range (host : Host) (v : PDFViewer.State) (e : PDFViewer.Event) :
  pageInRange v -> pageInRange (fst (step host v e)).
Proof.
  intros Hinv. destruct e; unfold step.
  - destruct loaded; [|exact Hinv]. split; cbn; [lia | now right].
  - destruct (_ && _); [|exact Hinv]. unfold PDFViewer.goToPreviousPage.
    destruct (Z.ltb_spec 1 (pageNumber v)); [|exact Hinv].
    destruct Hinv as [H1 H2]. split; cbn; lia.
  - destruct (_ && _); [|exact Hinv]. unfold PDFViewer.goToNextPage.
    destruct (Z.ltb_spec (pageNumber v) (numPages v)); [|exact Hinv].
    destruct Hinv as [H1 H2]. split; cbn; lia.
  - destruct (_ && _); exact Hinv.
  - destruct (_ && _); exact Hinv.
  - destruct (PDFViewer.toolbarMounted v); exact Hinv.
  - destruct (PDFViewer.overlayMounted v); exact Hinv.
  - destruct (PDFViewer.overlayMounted v); exact Hinv.
  - destruct (PDFViewer.overlayMounted v); [|exact Hinv]. destruct (emitted _); exact Hinv.
  - destruct (PDFViewer.overlayMounted v); [|exact Hinv]. destruct (emitted _); exact Hinv.
  - destruct (PDFViewer.toolbarMounted v); [|exact Hinv]. destruct (nth_error _ _); exact Hinv.
  - destruct (PDFViewer.toolbarMounted v); [|exact Hinv].
    destruct (nth_error _ _) as [area|]; [|exact Hinv].
    cbn [fst]. unfold SelectedAreasList.handleAreaRemove. cbn.
    destruct (SelectedAreasList.highlightedIs _ _); exact Hinv.
  - destruct (PDFViewer.toolbarMounted v); [|exact Hinv]. destruct (selectedAreas v); exact Hinv.
Qed.

(** X7.  From the initial state on, through every sequence of events (files
    chosen, loaded or failing to load, paging, zooming, gestures, list
    actions), the page number is at least 1, and it is at most the page count
    whenever the document has a page. *)
Theorem page_number_stays_in_the_document :
  forall (c : Canvas) (ctx : bool) (trace : list (Host * PDFViewer.Event)),
    (1 <= pageNumber (fst (run (PDFViewer.initial c ctx) trace)))%Z /\
    ((1 <= numPages (fst (run (PDFViewer.initial c ctx) trace)))%Z ->
     (pageNumber (fst (run (PDFViewer.initial c ctx) trace))
      <= numPages (fst (run (PDFViewer.initial c ctx) trace)))%Z).
Proof.
  intros c ctx trace.
  assert (Hinv : pageInRange (fst (run (PDFViewer.initial c ctx) trace))).
  { apply (run_keeps pageInRange).
    - apply step_keeps_page_in_range.
    - split; cbn; [lia | now right]. }
  destruct Hinv as [H1 H2]. split; [exact H1 | lia].
Qed.

Lemma step_keeps_scale_in_range (host : Host) (v : PDFViewer.State) (e : PDFViewer.Event) :
  scaleInRange v -> scaleInRange (fst (step host v e)).
Proof.
  intros Hinv. destruct e; unfold step.
  - destruct loaded; exact Hinv.
  - destruct (_ && _); [|exact Hinv]. unfold PDFViewer.goToPreviousPage.
    destruct (Z.ltb _ _); exact Hinv.
  - destruct (_ && _); [|exact Hinv]. unfold PDFViewer.goToNextPage.
    destruct (Z.ltb _ _); exact Hinv.
  - destruct (_ && _); [|exact Hinv]. destruct Hinv as [Hlo Hhi].
    unfold scaleInRange. cbn. unfold Math_min.
    destruct (Q.min_spec (scale v + 0.2) 3.0) as [[Hlt ->]|[Hle ->]]; split; lra.
  - destruct (_ && _); [|exact Hinv]. destruct Hinv as [Hlo Hhi].
    unfold scaleInRange. cbn. unfold Math_max.
    destruct (Q.max_spec (scale v - 0.2) 0.3) as [[Hlt ->]|[Hle ->]]; split; lra.
  - destruct (PDFViewer.toolbarMounted v); exact Hinv.
  - destruct (PDFViewer.overlayMounted v); exact Hinv.
  - destruct (PDFViewer.overlayMounted v); exact Hinv.
  - destruct (PDFViewer.overlayMounted v); [|exact Hinv]. destruct (emitted _); exact Hinv.
  - destruct (PDFViewer.overlayMounted v); [|exact Hinv]. destruct (emitted _); exact Hinv.
  - destruct (PDFViewer.toolbarMounted v); [|exact Hinv]. destruct (nth_error _ _); exact Hinv.
  - destruct (PDFViewer.toolbarMounted v); [|exact Hinv].
    destruct (nth_error _ _) as [area|]; [|exact Hinv].
    cbn [fst]. unfold SelectedAreasList.handleAreaRemove. cbn.
    destruct (SelectedAreasList.highlightedIs _ _); exact Hinv.
  - destruct (PDFViewer.toolbarMounted v); [|exact Hinv]. destruct (selectedAreas v); exact Hinv.
Qed.

(** X8.  From the initial zoom of 100%, no sequence of events takes the zoom
    factor below 30% or above 300%; and fit-to-width always sets a factor
    between 50% and 200%, whatever width is allocated. *)
Theorem zoom_stays_in_range :
  (forall (c : Canvas) (ctx : bool) (trace : list (Host * PDFViewer.Event)),
      0.3 <= scale (fst (run (PDFViewer.initial c ctx) trace)) /\
      scale (fst (run (PDFViewer.initial c ctx) trace)) <= 3.0)
  /\
  (forall (allocatedWidth : number) (v : PDFViewer.State),
      0.5 <= scale (Navigation.handleZoomFit allocatedWidth v) /\
      scale (Navigation.handleZoomFit allocatedWidth v) <= 2.0).
Proof.
  split.
  - intros c ctx trace.
    apply (run_keeps scaleInRange).
    + apply step_keeps_scale_in_range.
    + split; cbn; lra.
  - intros allocatedWidth v. unfold Navigation.handleZoomFit. cbn.
    unfold Math_max, Math_min.
    destruct (Q.min_spec ((allocatedWidth - 100) / 800) 2.0) as [[H1 E1]|[H1 E1]];
      destruct (Q.max_spec 0.5 (Qmin ((allocatedWidth - 100) / 800) 2.0)) as [[H2 E2]|[H2 E2]];
      rewrite E2; rewrite ?E1 in *; split; lra.
Qed.

(** X9.  Choosing a file (whether it loads or not), paging, zooming, toggling
    selection mode, pressing and moving the pointer never change the area list
    or the highlight, and emit no area: in particular the areas marked on one
    document stay listed after another document is loaded. *)
Theorem only_releases_and_list_actions_touch_areas :
  forall (host : Host) (v : PDFViewer.State) (e : PDFViewer.Event),
    touchesAreas e = false ->
    selectedAreas (fst (step host v e)) = selectedAreas v /\
    highlightedArea (fst (step host v e)) = highlightedArea v /\
    snd (step host v e) = None.
Proof.
  intros host v e He. destruct e; try discriminate He; unfold step.
  - destruct loaded; repeat split.
  - destruct (_ && _); [|repeat split]. unfold PDFViewer.goToPreviousPage.
    destruct (Z.ltb _ _); repeat split.
  - destruct (_ && _); [|repeat split]. unfold PDFViewer.goToNextPage.
    destruct (Z.ltb _ _); repeat split.
  - destruct (_ && _); repeat split.
  - destruct (_ && _); repeat split.
  - destruct (PDFViewer.toolbarMounted v); repeat split.
  - destruct (PDFViewer.overlayMounted v); repeat split.
  - destruct (PDFViewer.overlayMounted v); repeat split.
Qed.

(** Loading a second document keeps the area marked on the first. *)
Lemma only_releases_and_list_actions_touch_areas_witness :
  selectedAreas
    (fst (step Sample.host
               (Sample.viewer (Sample.document Sample.page1) 1 1
                              [Sample.area "a1" 1 10 20 30 40] None false idle)
               (PDFViewer.ChooseFile "other.pdf" (Normal Sample.book))))
  = [Sample.area "a1" 1 10 20 30 40].
Proof.
  destruct (@only_releases_and_list_actions_touch_areas Sample.host
              (Sample.viewer (Sample.document Sample.page1) 1 1
                             [Sample.area "a1" 1 10 20 30 40] None false idle)
              (PDFViewer.ChooseFile "other.pdf" (Normal Sample.book)) eq_refl)
    as [Hlist _].
  exact Hlist.
Defined.

End Viewer_invariants_view.

Section Viewer_invariants_page_witness.
Import PDFViewer(run, pageNumber).

(** The two-page book is loaded and "next" is clicked three times. *)
Lemma page_number_stays_in_the_document_witness :
  (pageNumber
     (fst (run (PDFViewer.initial Sample.canvas true)
               (Sample.events
                  [PDFViewer.ChooseFile "book.pdf" (JS.Normal Sample.book);
                   PDFViewer.NextClick; PDFViewer.NextClick; PDFViewer.NextClick])))
   <= 2)%Z.
Proof.
  destruct (page_number_stays_in_the_document Sample.canvas true
              (Sample.events
                 [PDFViewer.ChooseFile "book.pdf" (JS.Normal Sample.book);
                  PDFViewer.NextClick; PDFViewer.NextClick; PDFViewer.NextClick]))
    as [_ Hupper].
  apply Hupper. vm_compute. discriminate.
Defined.

End Viewer_invariants_page_witness.

(** *** The page input *)

Section Page_input.
Import JS JSLib PdfJs.
Import PDFViewer(pageNumber, numPages, setPageNumber).
Import Navigation.

Lemma parseDigits_of_uint_acc (d : Decimal.uint) :
  forall acc : positive,
    parseDigits (Z.pos acc) true (NilEmpty.string_of_uint d)
    = Some (Z.pos (Pos.of_uint_acc d acc)).
Proof.
  induction d; intros acc; cbn [NilEmpty.string_of_uint parseDigits Pos.of_uint_acc];
    try reflexivity;
    match goal with
    | |- context [digitValue ?c] =>
        let v := eval vm_compute in (digitValue c) in
        change (digitValue c) with v; cbv iota
    end;
    rewrite <- IHd; f_equal; lia.
Qed.

Lemma parseDigits_of_uint (d : Decimal.uint) :
  forall seen : bool,
    parseDigits 0 seen (NilEmpty.string_of_uint d)
    = match Pos.of_uint d with
      | N0 => match d with
              | Decimal.Nil => if seen then Some 0%Z else None
              | _ => Some 0%Z
              end
      | Npos p => Some (Z.pos p)
      end.
Proof.
  induction d; intros seen; cbn [NilEmpty.string_of_uint parseDigits Pos.of_uint];
    try reflexivity;
    match goal with
    | |- context [digitValue ?c] =>
        let v := eval vm_compute in (digitValue c) in
        change (digitValue c) with v; cbv iota
    end.
  - change (10 * 0 + 0)%Z with 0%Z. rewrite IHd.
    destruct (Pos.of_uint d); [destruct d|]; reflexivity.
  - apply (parseDigits_of_uint_acc d 1).
  - apply (parseDigits_of_uint_acc d 2).
  - apply (parseDigits_of_uint_acc d 3).
  - apply (parseDigits_of_uint_acc d 4).
  - apply (parseDigits_of_uint_acc d 5).
  - apply (parseDigits_of_uint_acc d 6).
  - apply (parseDigits_of_uint_acc d 7).
  - apply (parseDigits_of_uint_acc d 8).
  - apply (parseDigits_of_uint_acc d 9).
Qed.

(** The decimal rendering of a positive number starts with a digit and is read
    back as that number. *)
Lemma parse_rendered_positive (p : positive) :
  exists c rest,
    NilZero.string_of_uint (Pos.to_uint p) = String c rest /\
    digitValue c <> None /\
    parseDigits 0 false (String c rest) = Some (Z.pos p).
Proof.
  pose proof (DecimalPos.Unsigned.to_uint_nonnil p) as Hnil.
  pose proof (DecimalPos.Unsigned.of_to p) as Hof.
  pose proof (parseDigits_of_uint (Pos.to_uint p) false) as Hparse.
  rewrite Hof in Hparse.
  destruct (Pos.to_uint p) as [|d|d|d|d|d|d|d|d|d|d]; [congruence|..];
    eexists; eexists; (split; [reflexivity|]); (split; [discriminate|]); exact Hparse.
Qed.

(** A string that starts with a digit has no white space to skip and no sign. *)
Lemma parseInt10_starting_with_digit (c : ascii) (rest : string) :
  digitValue c <> None ->
  parseInt10 (String c rest) = parseDigits 0 false (String c rest).
Proof.
  intros Hdigit.
  destruct c as [[] [] [] [] [] [] [] []];
    try (exfalso; apply Hdigit; reflexivity); reflexivity.
Qed.

(** X10.  [parseInt(s, 10)] reads back the decimal rendering of every integer
    in the range where a number is rendered with all its digits (here: of
    magnitude below 2^53): what [toString] writes, sign included, is parsed to
    the same number.  So entering in the page input the value it shows leaves
    the viewer as it is. *)
Theorem parseInt_reads_back_toString :
  (forall n : Z, (Z.abs n < 2 ^ 53)%Z -> parseInt10 (toString n) = Some n) /\
  (forall v : PDFViewer.State,
      (Z.abs (pageNumber v) < 2 ^ 53)%Z ->
      handlePageInputChange (pageInputValue v) v = v).
Proof.
  assert (Hround : forall n : Z, parseInt10 (toString n) = Some n).
  { intros [|p|p]; unfold toString, Z.to_int, NilZero.string_of_int.
    - reflexivity.
    - destruct (parse_rendered_positive p) as (c & rest & Hs & Hdigit & Hparse).
      rewrite Hs, parseInt10_starting_with_digit by exact Hdigit. exact Hparse.
    - destruct (parse_rendered_positive p) as (c & rest & Hs & Hdigit & Hparse).
      rewrite Hs. unfold parseInt10. cbn [trimStart].
      change (isWhiteSpace "-") with false. cbv iota.
      rewrite Hparse. reflexivity. }
  split; [intros n _; exact (Hround n)|].
  intros v _. unfold handlePageInputChange, pageInputValue. rewrite Hround.
  destruct (Z.leb 1 (pageNumber v) && Z.leb (pageNumber v) (numPages v));
    now destruct v.
Qed.

(** Page 2 of the two-page book: the input shows "2". *)
Lemma parseInt_reads_back_toString_witness :
  parseInt10 (toString (-1204)) = Some (-1204)%Z /\
  handlePageInputChange
    (pageInputValue (Sample.viewer Sample.book 2 1 [] None false AreaSelectionTool.idle))
    (Sample.viewer Sample.book 2 1 [] None false AreaSelectionTool.idle)
  = Sample.viewer Sample.book 2 1 [] None false AreaSelectionTool.idle.
Proof.
  destruct parseInt_reads_back_toString as [Hn Hv]. split.
  - apply Hn. reflexivity.
  - apply Hv. reflexivity.
Defined.

(** X11.  The page input changes nothing but the page number, and the page it
    sets, if any, is a page of the document: text that is not a number, and
    numbers below 1 or above the page count, leave the page as it was. *)
Theorem page_input_selects_pages_of_the_document :
  forall (value : string) (v : PDFViewer.State),
    setPageNumber (fun _ => pageNumber v) (handlePageInputChange value v) = v /\
    (pageNumber (handlePageInputChange value v) = pageNumber v \/
     (1 <= pageNumber (handlePageInputChange value v) <= numPages v)%Z) /\
    (parseInt10 value = None -> handlePageInputChange value v = v) /\
    (forall n, parseInt10 value = Some n -> (n < 1 \/ numPages v < n)%Z ->
               handlePageInputChange value v = v).
Proof.
  intros value v. split; [|split; [|split]].
  - unfold handlePageInputChange. destruct (parseInt10 value) as [n|]; [|now destruct v].
    destruct (Z.leb 1 n && Z.leb n (numPages v)); now destruct v.
  - unfold handlePageInputChange. destruct (parseInt10 value) as [n|]; [|now left].
    destruct (Z.leb_spec 1 n); [|now left]. destruct (Z.leb_spec n (numPages v)); [|now left].
    right. cbn. lia.
  - intros Hnan. unfold handlePageInputChange. now rewrite Hnan.
  - intros n Hn Hout. unfold handlePageInputChange. rewrite Hn.
    destruct (Z.leb_spec 1 n); [|reflexivity].
    destruct (Z.leb_spec n (numPages v)); [lia | reflexivity].
Qed.

(** "abc" is no number and "7" is no page of the two-page book. *)
Lemma page_input_selects_pages_of_the_document_witness :
  handlePageInputChange "abc" (Sample.viewer Sample.book 2 1 [] None false AreaSelectionTool.idle)
  = Sample.viewer Sample.book 2 1 [] None false AreaSelectionTool.idle
  /\ handlePageInputChange "7" (Sample.viewer Sample.book 2 1 [] None false AreaSelectionTool.idle)
     = Sample.viewer Sample.book 2 1 [] None false AreaSelectionTool.idle.
Proof.
  destruct (page_input_selects_pages_of_the_document "abc"
              (Sample.viewer Sample.book 2 1 [] None false AreaSelectionTool.idle))
    as (_ & _ & Hnan & _).
  destruct (page_input_selects_pages_of_the_document "7"
              (Sample.viewer Sample.book 2 1 [] None false AreaSelectionTool.idle))
    as (_ & _ & _ & Hout).
  split.
  - apply Hnan. reflexivity.
  - apply (Hout 7%Z); [reflexivity | right; reflexivity].
Defined.

End Page_input.

(** *** The control's view *)

Section Control_view.
Import JS Control.

(** X12.  Whatever the context holds, [updateView] passes [true] for
    showThumbnails, enableDownload and enablePrint (a configured [false] is
    overridden), picks the dark theme exactly when the theme parameter is
    ["dark"], and never passes an allocated width or height of zero. *)
Theorem control_flags_are_always_on :
  forall (context : Context),
    showThumbnailsValue (updateView context) = true /\
    enableDownloadValue (updateView context) = true /\
    enablePrintValue (updateView context) = true /\
    (darkTheme (updateView context) = true <-> theme context = Some "dark"%string) /\
    viewerAllocatedWidth (updateView context) <> 0%Z /\
    viewerAllocatedHeight (updateView context) <> 0%Z.
Proof.
  intros context. unfold updateView. cbn.
  split; [destruct (showThumbnails context) as [[]|]; reflexivity|].
  split; [destruct (enableDownload context) as [[]|]; reflexivity|].
  split; [destruct (enablePrint context) as [[]|]; reflexivity|].
  split; [|split].
  - unfold string_or. destruct (theme context) as [s|].
    + destruct s as [|c s]; cbn [or_else].
      * split; [discriminate | intros [= H]; discriminate H].
      * rewrite String.eqb_eq. split; congruence.
    + split; [discriminate | discriminate].
  - unfold number_or. destruct (Z.eqb_spec (allocatedWidth context) 0); [discriminate | assumption].
  - unfold number_or. destruct (Z.eqb_spec (allocatedHeight context) 0); [discriminate | assumption].
Qed.

(** Download and print configured off, theme ["dark"], nothing allocated. *)
Lemma control_flags_are_always_on_witness :
  enableDownloadValue
    (updateView (mkContext (Some "dark"%string) None None (Some false) (Some false)
                           (Some false) 0 0)) = true
  /\ darkTheme
       (updateView (mkContext (Some "dark"%string) None None (Some false) (Some false)
                              (Some false) 0 0)) = true.
Proof.
  destruct (control_flags_are_always_on
              (mkContext (Some "dark"%string) None None (Some false) (Some false)
                         (Some false) 0 0)) as (_ & Hdownload & _ & Hdark & _).
  split; [exact Hdownload | apply Hdark; reflexivity].
Defined.

End Control_view.

(** *** The weather icon *)

Section Weather.
Import JS JSLib WeatherWidget.

(** X13.  For every temperature and weather code, the icon stored by
    [fetchWeatherData] is the cloud exactly for the codes other than 0 that are
    at most 3; for every other code it is chosen by the rounded temperature
    alone (above 25, above 15, or not).  The rain, snow, fog and thunder icons
    are never chosen, because the conditions are capitalised and the keywords
    are not, and the text "Rainy" is never rendered. *)
Theorem weather_icon_depends_on_clouds_and_temperature :
  forall (temperature_2m weatherCode : number),
    (fetchedIcon temperature_2m weatherCode = Cloud
     <-> (~ weatherCode == 0 /\ weatherCode <= 3)) /\
    (~ (~ weatherCode == 0 /\ weatherCode <= 3) ->
     fetchedIcon temperature_2m weatherCode
     = if gt (inject_Z (Math_round temperature_2m)) 25 then Sun
       else if gt (inject_Z (Math_round temperature_2m)) 15 then SunBehindCloud
       else SunBehindSmallCloud) /\
    fetchedIcon temperature_2m weatherCode <> RainCloud /\
    fetchedIcon temperature_2m weatherCode <> Snowflake /\
    fetchedIcon temperature_2m weatherCode <> Fog /\
    fetchedIcon temperature_2m weatherCode <> ThunderCloud /\
    renderedCondition (fetchedIcon temperature_2m weatherCode) <> "Rainy"%string.
Proof.
  intros t code. unfold fetchedIcon, conditionOf.
  destruct (Qeq_bool code 0) eqn:E0.
  - apply Qeq_bool_iff in E0.
    change (getWeatherIcon (inject_Z (Math_round t)) "Clear sky")
      with (if gt (inject_Z (Math_round t)) 25 then Sun
            else if gt (inject_Z (Math_round t)) 15 then SunBehindCloud
            else SunBehindSmallCloud).
    destruct (gt _ 25); [|destruct (gt _ 15)];
      (split; [split; [discriminate | tauto]|]); repeat split; discriminate.
  - apply Qeq_bool_neq in E0.
    destruct (Qle_bool code 3) eqn:E3.
    + apply Qle_bool_iff in E3.
      change (getWeatherIcon (inject_Z (Math_round t)) "Partly cloudy") with Cloud.
      split; [tauto|]. split; [tauto|]. repeat split; discriminate.
    + assert (H3 : ~ code <= 3)
        by (intros H; apply Qle_bool_iff in H; congruence).
      assert (Hrest : forall condition,
                 In condition ["Rainy"; "Snowy"; "Stormy"; "Sunny"]%string ->
                 getWeatherIcon (inject_Z (Math_round t)) condition
                 = if gt (inject_Z (Math_round t)) 25 then Sun
                   else if gt (inject_Z (Math_round t)) 15 then SunBehindCloud
                   else SunBehindSmallCloud).
      { intros condition [<-|[<-|[<-|[<-|[]]]]]; reflexivity. }
      rewrite Hrest
        by (destruct (Qle_bool code 67); [|destruct (Qle_bool code 77);
                                            [|destruct (Qle_bool code 99)]];
            cbn; tauto).
      destruct (gt _ 25); [|destruct (gt _ 15)];
        (split; [split; [discriminate | tauto]|]); repeat split; discriminate.
Qed.

(** Weather code 61 (rain) at 30 degrees: the sun. *)
Lemma weather_icon_depends_on_clouds_and_temperature_witness :
  fetchedIcon 30 61 = Sun.
Proof.
  destruct (weather_icon_depends_on_clouds_and_temperature 30 61) as (_ & Htemp & _).
  rewrite Htemp; [reflexivity|].
  intros [_ Hle]. vm_compute in Hle. apply Hle. reflexivity.
Defined.

End Weather.

(** *** Rotation *)

Section Rotation.
Import JS JSLib PdfJs AreaSelectionTool Notions.
Import PDFViewer(strokedRects, filledRects, areaRect, forEachArea, SetWidth, SetHeight, ClearRect).
Import RotatingViewer(handleRotation).

(** X14.  Starting from 0, any number of clicks on "rotate" leaves the rotation
    at 0, 90, 180 or 270, and four more clicks bring back the same rotation. *)
Theorem rotation_cycles_through_quarter_turns :
  forall n : nat,
    In (Nat.iter n handleRotation 0%Z) [0; 90; 180; 270]%Z /\
    Nat.iter (n + 4) handleRotation 0%Z = Nat.iter n handleRotation 0%Z.
Proof.
  intros n. split.
  - induction n as [|n IH]; [now left|].
    change (Nat.iter (S n) handleRotation 0%Z)
      with (handleRotation (Nat.iter n handleRotation 0%Z)).
    destruct IH as [H|[H|[H|[H|[]]]]]; rewrite <- H; cbn; tauto.
  - rewrite Nat.iter_add. reflexivity.
Qed.

End Rotation.

Section Rotating_redraw.
Import JS JSLib PdfJs AreaSelectionTool Notions.
Import PDFViewer(strokedRects, filledRects, areaRect, forEachArea, SetWidth, SetHeight, ClearRect).
Import RotatingViewer(drawSelectionBoxes, handleAreaSelected, toolProps).

(** The redraw of the rotation-aware viewer when the page is found. *)
Lemma rotating_redraw_running (v : RotatingViewer.State) (mainCanvas : Canvas)
      (doc : PDFDocument) (pg : PDFPage) :
  RotatingViewer.canvasRef v = Some mainCanvas ->
  RotatingViewer.selectionCanvasRef v = Some true ->
  RotatingViewer.pdfDoc v = Some doc ->
  getPage doc (RotatingViewer.pageNumber v) = Normal pg ->
  drawSelectionBoxes v =
  [ SetWidth (cv_width mainCanvas); SetHeight (cv_height mainCanvas);
    ClearRect 0 0 (cv_width mainCanvas) (cv_height mainCanvas) ]
  ++ flat_map (forEachArea (getViewport pg (mkParams 1.0 None))
                 (getViewport pg (mkParams (RotatingViewer.scale v)
                                           (Some (inject_Z (RotatingViewer.rotation v)))))
                 (RotatingViewer.highlightedArea v))
              (filter (onPage (RotatingViewer.pageNumber v)) (RotatingViewer.selectedAreas v)).
Proof.
  intros Hcv Hctx Hdoc Hpg. unfold drawSelectionBoxes.
  rewrite Hcv, Hctx, Hdoc, Hpg. cbn [negb]. f_equal.
  fold (onPage (RotatingViewer.pageNumber v)).
  destruct (filter (onPage (RotatingViewer.pageNumber v)) (RotatingViewer.selectedAreas v));
    reflexivity.
Qed.

(** X15.  In the viewer with rotation, where the tool and the redraw are given
    the same rotation, the rectangle of a released drag comes back unchanged
    for every scale and every rotation: after the area is added, the redraw
    strokes and fills, after what it drew before, a rectangle equal to the drag
    rectangle (viewports with non-zero sides). *)
Theorem rotated_drag_rectangle_round_trip :
  forall (host : Host) (v : RotatingViewer.State) (mainCanvas : Canvas)
         (sp cp : Point) (doc : PDFDocument) (pg : PDFPage),
    RotatingViewer.canvasRef v = Some mainCanvas ->
    RotatingViewer.selectionCanvasRef v = Some true ->
    RotatingViewer.pdfDoc v = Some doc ->
    getPage doc (RotatingViewer.pageNumber v) = Normal pg ->
    ~ vp_width (getViewport pg (mkParams 1.0 None)) == 0 ->
    ~ vp_height (getViewport pg (mkParams 1.0 None)) == 0 ->
    ~ vp_width (getViewport pg (mkParams (RotatingViewer.scale v)
                                         (Some (inject_Z (RotatingViewer.rotation v))))) == 0 ->
    ~ vp_height (getViewport pg (mkParams (RotatingViewer.scale v)
                                          (Some (inject_Z (RotatingViewer.rotation v))))) == 0 ->
    largeEnough (dragRect sp cp) ->
    exists area r,
      handleMouseUp host (toolProps v true) (mkState true (Some sp) (Some cp))
      = mkOutcome idle (Some area) /\
      strokedRects (drawSelectionBoxes (handleAreaSelected area v))
      = strokedRects (drawSelectionBoxes v) ++ [r] /\
      filledRects (drawSelectionBoxes (handleAreaSelected area v))
      = filledRects (drawSelectionBoxes v) ++ [r] /\
      sameRect r (dragRect sp cp).
Proof.
  intros host v mainCanvas sp cp doc pg Hcv Hctx Hdoc Hpg Hpw Hph Hcw Hch Hlarge.
  set (pv := getViewport pg (mkParams 1.0 None)) in *.
  set (cv := getViewport pg (mkParams (RotatingViewer.scale v)
                                      (Some (inject_Z (RotatingViewer.rotation v))))) in *.
  set (area := builtArea host (toolProps v true) doc sp cp pg).
  exists area, (areaRect pv cv area).
  assert (Hon : onPage (RotatingViewer.pageNumber v) area = true) by apply Z.eqb_refl.
  pose proof (rotating_redraw_running v Hcv Hctx Hdoc Hpg) as Hbefore.
  pose proof (rotating_redraw_running (handleAreaSelected area v) Hcv Hctx Hdoc Hpg) as Hafter.
  cbn [handleAreaSelected RotatingViewer.selectedAreas RotatingViewer.pageNumber
       RotatingViewer.scale RotatingViewer.rotation RotatingViewer.highlightedArea] in Hafter.
  fold pv cv in Hbefore, Hafter.
  rewrite filter_app in Hafter. cbn [filter] in Hafter. rewrite Hon in Hafter.
  rewrite flat_map_app in Hafter.
  split; [|split; [|split]].
  - apply release_page_found with (canvas := mainCanvas); try reflexivity; assumption.
  - rewrite Hafter, Hbefore, !strokedRects_app, !strokedRects_areas.
    cbn [map]. now rewrite !app_assoc.
  - rewrite Hafter, Hbefore, !filledRects_app, !filledRects_areas.
    cbn [map]. now rewrite !app_assoc.
  - unfold sameRect, areaRect, area, builtArea.
    cbn [position pdfX pdfY pdfWidth pdfHeight rect_x rect_y rect_width rect_height
         scale AreaSelectionTool.rotation toolProps].
    fold pv cv.
    repeat split; apply rescale_round_trip; assumption.
Qed.

(** The sample page turned by 90 degrees and shown at 150%. *)
Lemma rotated_drag_rectangle_round_trip_witness :
  exists area r,
    handleMouseUp Sample.host
      (toolProps (RotatingViewer.mkState (Some Sample.canvas) (Some true)
                    (Some (Sample.document Sample.page1)) 1 1.5 90 [] None) true)
      (mkState true (Some (mkPoint 100 100)) (Some (mkPoint 200 150)))
    = mkOutcome idle (Some area) /\
    strokedRects
      (drawSelectionBoxes
         (handleAreaSelected area
            (RotatingViewer.mkState (Some Sample.canvas) (Some true)
               (Some (Sample.document Sample.page1)) 1 1.5 90 [] None)))
    = [] ++ [r] /\
    filledRects
      (drawSelectionBoxes
         (handleAreaSelected area
            (RotatingViewer.mkState (Some Sample.canvas) (Some true)
               (Some (Sample.document Sample.page1)) 1 1.5 90 [] None)))
    = [] ++ [r] /\
    sameRect r (mkRect 100 100 100 50).
Proof.
  apply (@rotated_drag_rectangle_round_trip Sample.host
           (RotatingViewer.mkState (Some Sample.canvas) (Some true)
              (Some (Sample.document Sample.page1)) 1 1.5 90 [] None)
           Sample.canvas (mkPoint 100 100) (mkPoint 200 150)
           (Sample.document Sample.page1) Sample.page1
           eq_refl eq_refl eq_refl eq_refl);
    try (intro H; vm_compute in H; discriminate).
  split; reflexivity.
Defined.

(** X16.  When the page lookup fails, the viewer with rotation has already
    sized and cleared the overlay and draws nothing more, so the overlay is
    left blank; the viewer of index.ts looks the page up first and then makes
    no call at all, so what was drawn before stays on the overlay. *)
Theorem overlay_after_failed_page_lookup :
  (forall (v : RotatingViewer.State) (mainCanvas : Canvas) (doc : PDFDocument)
          (reason : string),
      RotatingViewer.canvasRef v = Some mainCanvas ->
      RotatingViewer.selectionCanvasRef v = Some true ->
      RotatingViewer.pdfDoc v = Some doc ->
      getPage doc (RotatingViewer.pageNumber v) = Throw reason ->
      drawSelectionBoxes v
      = [ SetWidth (cv_width mainCanvas); SetHeight (cv_height mainCanvas);
          ClearRect 0 0 (cv_width mainCanvas) (cv_height mainCanvas) ])
  /\
  (forall (v : PDFViewer.State) (doc : PDFDocument) (reason : string),
      PDFViewer.pdfDoc v = Some doc ->
      getPage doc (PDFViewer.pageNumber v) = Throw reason ->
      PDFViewer.drawSelectionBoxes v = []).
Proof.
  split.
  - intros v mainCanvas doc reason Hcv Hctx Hdoc Hpg. unfold drawSelectionBoxes.
    rewrite Hcv, Hctx, Hdoc, Hpg. cbn [negb].
    destruct (filter _ _); reflexivity.
  - intros v doc reason Hdoc Hpg. unfold PDFViewer.drawSelectionBoxes.
    rewrite Hdoc, Hpg.
    destruct (PDFViewer.canvasRef v); [|reflexivity].
    destruct (PDFViewer.selectionCanvasRef v) as [[]|]; reflexivity.
Qed.

(** The broken document in both viewers, one area listed on page 1. *)
Lemma overlay_after_failed_page_lookup_witness :
  drawSelectionBoxes
    (RotatingViewer.mkState (Some Sample.canvas) (Some true) (Some Sample.brokenDocument)
                            1 1 0 [Sample.area "a1" 1 10 20 30 40] None)
  = [SetWidth 612; SetHeight 792; ClearRect 0 0 612 792]
  /\
  PDFViewer.drawSelectionBoxes
    (Sample.viewer Sample.brokenDocument 1 1 [Sample.area "a1" 1 10 20 30 40] None false idle)
  = [].
Proof.
  destruct overlay_after_failed_page_lookup as [Hrot Hplain]. split.
  - exact (Hrot (RotatingViewer.mkState (Some Sample.canvas) (Some true)
                   (Some Sample.brokenDocument) 1 1 0
                   [Sample.area "a1" 1 10 20 30 40] None)
                Sample.canvas Sample.brokenDocument "Invalid page request"%string
                eq_refl eq_refl eq_refl eq_refl).
  - exact (Hplain (Sample.viewer Sample.brokenDocument 1 1
                     [Sample.area "a1" 1 10 20 30 40] None false idle)
                  Sample.brokenDocument "Invalid page request"%string eq_refl eq_refl).
Defined.

End Rotating_redraw.

(** *** More on the overlay redraw of index.ts *)

Section Redraw_more.
Import JS PdfJs AreaSelectionTool Notions.
Import PDFViewer(drawSelectionBoxes, forEachArea, areaRect, strokedRects, filledRects,
                 CanvasOp, SetWidth, SetHeight, ClearRect).

(** The redraw either makes no call, or it runs on a page that was found. *)
Lemma redraw_shape (v : PDFViewer.State) :
  (drawSelectionBoxes v = [] /\
   (PDFViewer.documentMounted v = false \/ PDFViewer.selectionContext2d v = false \/
    exists doc reason, PDFViewer.pdfDoc v = Some doc /\
                       getPage doc (PDFViewer.pageNumber v) = Throw reason))
  \/
  (exists doc pg,
      PDFViewer.documentMounted v = true /\ PDFViewer.selectionContext2d v = true /\
      PDFViewer.pdfDoc v = Some doc /\ getPage doc (PDFViewer.pageNumber v) = Normal pg).
Proof.
  unfold drawSelectionBoxes, PDFViewer.canvasRef, PDFViewer.selectionCanvasRef.
  destruct (PDFViewer.documentMounted v) eqn:Hm; [|left; split; [reflexivity | now left]].
  destruct (PDFViewer.selectionContext2d v) eqn:Hctx;
    [|left; split; [destruct (PDFViewer.pdfDoc v); reflexivity | right; now left]].
  destruct (PDFViewer.pdfDoc v) as [doc|] eqn:Hdoc.
  - destruct (getPage doc (PDFViewer.pageNumber v)) as [pg|reason] eqn:Hpg.
    + right. exists doc, pg. repeat split; assumption.
    + left. split; [reflexivity|]. right. right. exists doc, reason. now split.
  - exfalso. unfold PDFViewer.documentMounted in Hm. rewrite Hdoc in Hm.
    rewrite andb_false_r in Hm. discriminate.
Qed.

(** X17.  Highlighting moves nothing: whichever area is highlighted, or none,
    the redraw strokes and fills the same rectangles in the same order; the
    highlight only changes the line width, the dash pattern and the fill
    style. *)
Theorem highlight_does_not_move_rectangles :
  forall (v : PDFViewer.State) (highlighted : option SelectedArea),
    strokedRects (drawSelectionBoxes (PDFViewer.setHighlightedArea highlighted v))
    = strokedRects (drawSelectionBoxes v) /\
    filledRects (drawSelectionBoxes (PDFViewer.setHighlightedArea highlighted v))
    = filledRects (drawSelectionBoxes v).
Proof.
  intros v highlighted.
  destruct (redraw_shape v) as [[Hnone Hwhy]|(doc & pg & Hm & Hctx & Hdoc & Hpg)].
  - assert (Hnone' : drawSelectionBoxes (PDFViewer.setHighlightedArea highlighted v) = []).
    { revert Hnone. unfold drawSelectionBoxes, PDFViewer.canvasRef, PDFViewer.selectionCanvasRef.
      change (PDFViewer.documentMounted (PDFViewer.setHighlightedArea highlighted v))
        with (PDFViewer.documentMounted v).
      cbn [PDFViewer.setHighlightedArea PDFViewer.pdfDoc PDFViewer.pageNumber PDFViewer.scale
           PDFViewer.canvas PDFViewer.selectionContext2d PDFViewer.selectedAreas
           PDFViewer.highlightedArea].
      destruct (PDFViewer.documentMounted v); [|reflexivity].
      destruct (PDFViewer.pdfDoc v) as [doc|]; [|reflexivity].
      destruct (PDFViewer.selectionContext2d v); [|reflexivity]. cbn [negb].
      destruct (getPage doc (PDFViewer.pageNumber v)); [discriminate | reflexivity]. }
    rewrite Hnone, Hnone'. split; reflexivity.
  - rewrite (drawSelectionBoxes_running v Hm Hctx Hdoc Hpg).
    rewrite (drawSelectionBoxes_running (PDFViewer.setHighlightedArea highlighted v)
               Hm Hctx Hdoc Hpg).
    rewrite !strokedRects_app, !filledRects_app, !strokedRects_areas, !filledRects_areas.
    split; reflexivity.
Qed.

(** X18.  The redraw makes no call at all exactly when the canvases are not
    mounted, the overlay has no 2D context, or the page lookup fails.
    Otherwise it first sizes the overlay to the page canvas and clears all of
    it, and then makes six calls for each listed area of the current page: so
    rectangles of an earlier redraw never remain. *)
Theorem redraw_clears_then_draws_six_calls_per_area :
  forall (v : PDFViewer.State),
    (drawSelectionBoxes v = [] <->
     (PDFViewer.documentMounted v = false \/ PDFViewer.selectionContext2d v = false \/
      exists doc reason, PDFViewer.pdfDoc v = Some doc /\
                         getPage doc (PDFViewer.pageNumber v) = Throw reason)) /\
    (drawSelectionBoxes v <> [] ->
     exists rest,
       drawSelectionBoxes v
       = [ SetWidth (cv_width (PDFViewer.canvas v));
           SetHeight (cv_height (PDFViewer.canvas v));
           ClearRect 0 0 (cv_width (PDFViewer.canvas v)) (cv_height (PDFViewer.canvas v)) ]
         ++ rest /\
       List.length rest
       = (6 * List.length (filter (onPage (PDFViewer.pageNumber v))
                                  (PDFViewer.selectedAreas v)))%nat).
Proof.
  intros v.
  destruct (redraw_shape v) as [[Hnone Hwhy]|(doc & pg & Hm & Hctx & Hdoc & Hpg)].
  - split; [tauto | congruence].
  - pose proof (drawSelectionBoxes_running v Hm Hctx Hdoc Hpg) as Hrun. split.
    + split.
      * rewrite Hrun. discriminate.
      * intros [H|[H|(doc' & reason & Hdoc' & Hpg')]]; congruence.
    + intros _.
      match type of Hrun with _ = _ ++ ?r => exists r end.
      split; [exact Hrun|]. clear Hrun.
      induction (filter (onPage (PDFViewer.pageNumber v)) (PDFViewer.selectedAreas v))
        as [|area areas IH]; [reflexivity|].
      cbn [flat_map]. rewrite length_app, IH. cbn. lia.
Qed.

(** The sample viewer with two areas on page 1. *)
Lemma redraw_clears_then_draws_six_calls_per_area_witness :
  exists rest,
    drawSelectionBoxes
      (Sample.viewer Sample.book 1 1
         [Sample.area "a1" 1 10 20 30 40; Sample.area "a2" 1 50 60 70 80] None false idle)
    = [SetWidth 612; SetHeight 792; ClearRect 0 0 612 792] ++ rest
    /\ List.length rest = 12%nat.
Proof.
  destruct (redraw_clears_then_draws_six_calls_per_area
              (Sample.viewer Sample.book 1 1
                 [Sample.area "a1" 1 10 20 30 40; Sample.area "a2" 1 50 60 70 80]
                 None false idle)) as [_ Hruns].
  apply Hruns. discriminate.
Defined.

End Redraw_more.

Section Redraw_zoom.
Import JS PdfJs AreaSelectionTool Notions.
Import PDFViewer(drawSelectionBoxes, forEachArea, areaRect, strokedRects, filledRects).

Lemma Forall2_map_same (A B : Type) (R : B -> B -> Prop) (f g : A -> B) (l : list A) :
  (forall x, R (f x) (g x)) -> Forall2 R (map f l) (map g l).
Proof. intros H. induction l; cbn; constructor; auto. Qed.

(** X19.  Zooming keeps the rectangles on their content: when the page's
    display viewport at the new scale is [factor] times the one at the old
    scale in both directions, every rectangle of the redraw at the new scale is
    the corresponding rectangle of the old redraw with position and size
    multiplied by [factor]. *)
Theorem zoom_scales_drawn_rectangles :
  forall (v : PDFViewer.State) (factor scale' : number) (doc : PDFDocument) (pg : PDFPage),
    PDFViewer.documentMounted v = true ->
    PDFViewer.selectionContext2d v = true ->
    PDFViewer.pdfDoc v = Some doc ->
    getPage doc (PDFViewer.pageNumber v) = Normal pg ->
    vp_width (getViewport pg (mkParams scale' None))
    == factor * vp_width (getViewport pg (mkParams (PDFViewer.scale v) None)) ->
    vp_height (getViewport pg (mkParams scale' None))
    == factor * vp_height (getViewport pg (mkParams (PDFViewer.scale v) None)) ->
    Forall2 (fun r r' =>
               rect_x r' == factor * rect_x r /\ rect_y r' == factor * rect_y r /\
               rect_width r' == factor * rect_width r /\
               rect_height r' == factor * rect_height r)
            (strokedRects (drawSelectionBoxes v))
            (strokedRects (drawSelectionBoxes (PDFViewer.setScale (fun _ => scale') v))).
Proof.
  intros v factor scale' doc pg Hm Hctx Hdoc Hpg Hw Hh.
  rewrite (drawSelectionBoxes_running v Hm Hctx Hdoc Hpg).
  rewrite (drawSelectionBoxes_running (PDFViewer.setScale (fun _ => scale') v)
             Hm Hctx Hdoc Hpg).
  rewrite !strokedRects_app, !strokedRects_areas.
  cbn [PDFViewer.setScale PDFViewer.scale PDFViewer.pageNumber PDFViewer.selectedAreas
       strokedRects app].
  apply Forall2_map_same. intros area. unfold areaRect. cbn.
  rewrite Hw, Hh. unfold Qdiv. repeat split; ring.
Qed.

(** From 100% to 200% on the sample page: the rectangle doubles. *)
Lemma zoom_scales_drawn_rectangles_witness :
  Forall2 (fun r r' =>
             rect_x r' == 2 * rect_x r /\ rect_y r' == 2 * rect_y r /\
             rect_width r' == 2 * rect_width r /\ rect_height r' == 2 * rect_height r)
          (strokedRects
             (drawSelectionBoxes
                (Sample.viewer Sample.book 1 1 [Sample.area "a1" 1 10 20 30 40]
                               None false idle)))
          (strokedRects
             (drawSelectionBoxes
                (PDFViewer.setScale (fun _ => 2)
                   (Sample.viewer Sample.book 1 1 [Sample.area "a1" 1 10 20 30 40]
                                  None false idle)))).
Proof.
  apply (@zoom_scales_drawn_rectangles
           (Sample.viewer Sample.book 1 1 [Sample.area "a1" 1 10 20 30 40] None false idle)
           2 2 Sample.book Sample.page1 eq_refl eq_refl eq_refl eq_refl);
    reflexivity.
Defined.

End Redraw_zoom.

(** *** The text shown for an area *)

Section Truncation.
Import JS JSLib.
Local Open Scope string_scope.

Lemma length_append (a b : string) :
  String.length (a ++ b) = (String.length a + String.length b)%nat.
Proof. induction a as [|c a IH]; cbn; [reflexivity | now rewrite IH]. Qed.

Lemma length_substring0 (n : nat) :
  forall s, String.length (substring0 n s) = Nat.min n (String.length s).
Proof.
  unfold substring0. induction n as [|n IH]; intros [|c s]; cbn; try reflexivity.
  now rewrite IH.
Qed.

Lemma substring0_append (a b : string) :
  substring0 (String.length a) (a ++ b) = a.
Proof.
  unfold substring0. induction a as [|c a IH]; cbn.
  - destruct b; reflexivity.
  - now rewrite IH.
Qed.

Lemma prefix_substring0 (n : nat) : forall s, String.prefix (substring0 n s) s = true.
Proof.
  unfold substring0. induction n as [|n IH]; intros [|c s]; cbn; try reflexivity.
  rewrite IH. destruct (ascii_dec c c); [reflexivity | congruence].
Qed.

(** X20.  [truncateText] never returns more than [maxLength + 3] characters;
    a text of at most [maxLength] characters is returned as it is; a longer
    one becomes its first [maxLength] characters followed by three dots; and
    truncating an already truncated text changes nothing. *)
Theorem truncateText_bounds_the_text :
  forall (text : string) (maxLength : nat),
    (String.length (ListText.truncateText text maxLength) <= maxLength + 3)%nat /\
    ((String.length text <= maxLength)%nat -> ListText.truncateText text maxLength = text) /\
    ((maxLength < String.length text)%nat ->
     exists head,
       ListText.truncateText text maxLength = head ++ "..." /\
       String.length head = maxLength /\ String.prefix head text = true) /\
    ListText.truncateText (ListText.truncateText text maxLength) maxLength
    = ListText.truncateText text maxLength.
Proof.
  intros text maxLength. unfold ListText.truncateText.
  destruct (Nat.leb_spec (String.length text) maxLength) as [Hshort|Hlong].
  - split; [lia|]. split; [reflexivity|]. split; [lia|].
    destruct (Nat.leb_spec (String.length text) maxLength); [reflexivity | lia].
  - assert (Hhead : String.length (substring0 maxLength text) = maxLength)
      by (rewrite length_substring0; lia).
    split; [rewrite length_append, Hhead; cbn; lia|].
    split; [lia|]. split.
    + intros _. exists (substring0 maxLength text).
      split; [reflexivity|]. split; [exact Hhead | apply prefix_substring0].
    + destruct (Nat.leb_spec (String.length (substring0 maxLength text ++ "...")) maxLength)
        as [H|H].
      * rewrite length_append, Hhead in H. cbn in H. lia.
      * rewrite <- Hhead at 1. rewrite substring0_append. reflexivity.
Qed.

(** A text of 11 characters cut at 5. *)
Lemma truncateText_bounds_the_text_witness :
  exists head,
    ListText.truncateText "hello world" 5 = head ++ "..." /\
    String.length head = 5%nat /\ String.prefix head "hello world" = true.
Proof.
  destruct (truncateText_bounds_the_text "hello world" 5) as (_ & _ & Hlong & _).
  apply Hlong. cbn. lia.
Defined.

End Truncation.

(** *** The paged list *)

Section Paging.
Import JS JSLib.
Import AreaSelectionTool(SelectedArea).
Import PagedList.

Lemma totalPages_bounds (l : list SelectedArea) :
  (5 * (totalPages l - 1) < Z.of_nat (List.length l) <= 5 * totalPages l)%Z.
Proof.
  unfold totalPages, Math_ceil, ITEMS_PER_PAGE.
  pose proof (Qle_ceiling (inject_Z (Z.of_nat (List.length l)) / inject_Z 5)) as Hup.
  pose proof (Qceiling_lt (inject_Z (Z.of_nat (List.length l)) / inject_Z 5)) as Hlow.
  set (t := Qceiling (inject_Z (Z.of_nat (List.length l)) / inject_Z 5)) in *.
  assert (Hup' : inject_Z (Z.of_nat (List.length l)) <= inject_Z (5 * t)).
  { rewrite inject_Z_mult.
    apply Qle_trans with (inject_Z 5 * (inject_Z (Z.of_nat (List.length l)) / inject_Z 5)).
    - apply Qle_lteq. right. field; discriminate.
    - apply Qmult_le_l; [reflexivity | exact Hup]. }
  assert (Hlow' : inject_Z (5 * (t - 1)) < inject_Z (Z.of_nat (List.length l))).
  { rewrite inject_Z_mult.
    apply Qlt_le_trans with (inject_Z 5 * (inject_Z (Z.of_nat (List.length l)) / inject_Z 5)).
    - apply Qmult_lt_l; [reflexivity | exact Hlow].
    - apply Qle_lteq. right. field; discriminate. }
  rewrite <- Zle_Qle in Hup'. rewrite <- Zlt_Qlt in Hlow'. lia.
Qed.

Lemma firstn_add (A : Type) (a b : nat) :
  forall l : list A, firstn (a + b) l = firstn a l ++ firstn b (skipn a l).
Proof.
  induction a as [|a IH]; intros l; [reflexivity|].
  destruct l as [|x l]; cbn; [now destruct b | now rewrite IH].
Qed.

(** The areas shown on page [p] (counted from 1): five from position
    [5 * (p - 1)] on, or as many as are left. *)
Lemma currentAreas_chunk (l : list SelectedArea) (i : nat) :
  currentAreas l (Z.of_nat (S i)) = firstn 5 (skipn (5 * i) l).
Proof.
  unfold currentAreas, startIndex, ITEMS_PER_PAGE, slice.
  replace ((Z.of_nat (S i) - 1) * 5)%Z with (Z.of_nat (5 * i)) by lia.
  destruct (Z.ltb_spec (Z.of_nat (5 * i)) 0); [lia|].
  destruct (Z.ltb_spec (Z.of_nat (5 * i) + 5) 0); [lia|].
  destruct (Nat.le_gt_cases (List.length l) (5 * i)) as [Hpast|Hin].
  - rewrite Z.min_r by lia. rewrite Z.min_r by lia.
    rewrite Z.sub_diag, Nat2Z.id. cbn [Z.to_nat firstn].
    rewrite (skipn_all2 l Hpast). reflexivity.
  - rewrite (Z.min_l (Z.of_nat (5 * i))) by lia. rewrite Nat2Z.id.
    assert (Hlen : List.length (skipn (5 * i) l) = (List.length l - 5 * i)%nat)
      by apply length_skipn.
    destruct (Nat.le_gt_cases (5 * i + 5) (List.length l)) as [Hfull|Hpart].
    + rewrite Z.min_l by lia. f_equal. lia.
    + rewrite Z.min_r by lia.
      replace (Z.to_nat (Z.of_nat (List.length l) - Z.of_nat (5 * i)))
        with (List.length (skipn (5 * i) l)) by lia.
      rewrite firstn_all. symmetry. apply firstn_all2. lia.
Qed.

Lemma chunks_concat (l : list SelectedArea) (n : nat) :
  List.concat (map (fun i => firstn 5 (skipn (5 * i) l)) (seq 0 n)) = firstn (5 * n) l.
Proof.
  induction n as [|n IH]; [reflexivity|].
  rewrite seq_S, map_app, concat_app, IH. cbn [map List.concat Nat.add].
  rewrite app_nil_r. replace (5 * S n)%nat with (5 * n + 5)%nat by lia.
  symmetry. apply firstn_add.
Qed.

(** X21.  The pages of the list partition it: the areas shown on pages 1 to
    [totalPages], one page after the other, are exactly the listed areas in
    their order, none lost and none shown twice. *)
Theorem pages_partition_the_list :
  forall (l : list SelectedArea),
    List.concat (map (fun i => currentAreas l (Z.of_nat (S i)))
                (seq 0 (Z.to_nat (totalPages l))))
    = l.
Proof.
  intros l.
  rewrite (map_ext _ (fun i => firstn 5 (skipn (5 * i) l)))
    by (intros i; apply currentAreas_chunk).
  rewrite chunks_concat. apply firstn_all2.
  pose proof (totalPages_bounds l). lia.
Qed.

(** X22.  A page between 1 and [totalPages] shows at least one area and at most
    five, and every page before the last shows exactly five; a page after the
    last shows nothing; and there is no page at all exactly when the list is
    empty. *)
Theorem pages_hold_one_to_five_areas :
  forall (l : list SelectedArea) (p : Z),
    (1 <= p)%Z ->
    ((p <= totalPages l)%Z ->
     (1 <= List.length (currentAreas l p) <= 5)%nat /\
     ((p < totalPages l)%Z -> List.length (currentAreas l p) = 5%nat)) /\
    ((totalPages l < p)%Z -> currentAreas l p = []) /\
    (totalPages l = 0%Z <-> l = []).
Proof.
  intros l p Hp. pose proof (totalPages_bounds l) as Hb.
  replace p with (Z.of_nat (S (Z.to_nat (p - 1)))) by lia.
  rewrite currentAreas_chunk.
  set (i := Z.to_nat (p - 1)).
  assert (Hi : Z.of_nat i = (p - 1)%Z) by (unfold i; lia).
  replace (Z.of_nat (S i)) with p by lia.
  assert (Hlen : List.length (firstn 5 (skipn (5 * i) l))
                 = Nat.min 5 (List.length l - 5 * i)) by (rewrite length_firstn, length_skipn; reflexivity).
  split; [|split].
  - intros Hle. rewrite Hlen. split; [lia | intros Hlt; lia].
  - intros Hgt. apply length_zero_iff_nil. rewrite Hlen. lia.
  - split.
    + intros Ht. apply length_zero_iff_nil. lia.
    + intros ->. reflexivity.
Qed.

(** Seven areas: page 2 is the last and shows two. *)
Lemma pages_hold_one_to_five_areas_witness :
  (1 <= List.length
          (currentAreas (repeat (Sample.area "a" 1%Z 10%Q 20%Q 30%Q 40%Q) 7%nat) 2%Z)
   <= 5)%nat.
Proof.
  destruct (@pages_hold_one_to_five_areas (repeat (Sample.area "a" 1 10 20 30 40) 7) 2%Z)
    as [Hin _].
  - lia.
  - apply Hin. vm_compute. discriminate.
Defined.

End Paging.

Section Paging_navigation.
Import JS JSLib.
Import AreaSelectionTool(SelectedArea).
Import PagedList.




End Paging_navigation.

Section Truncation_trimmed.
Import JS JSLib.
Local Open Scope string_scope.










End Truncation_trimmed.

(** *** More on the text matcher *)

Section Matcher_more.
Import JS PdfJs AreaSelectionTool Notions.

Local Open Scope string_scope.

(** The strings of two lists of runs, each followed by a space. *)
Lemma trailing_spaces_app (l1 l2 : list string) :
  fold_right (fun s acc => s ++ " " ++ acc) "" (l1 ++ l2)%list
  = fold_right (fun s acc => s ++ " " ++ acc) "" l1
    ++ fold_right (fun s acc => s ++ " " ++ acc) "" l2.
Proof.
  induction l1 as [|s l1 IH]; cbn [fold_right app]; [reflexivity|].
  rewrite IH, !append_assoc. reflexivity.
Qed.

(** A run whose box overlaps a rectangle overlaps every rectangle containing
    it. *)
Lemma overlaps_contained (host : Host) (small big : TextArea) (run : TextItem) :
  (area_x big <= area_x small)%Q ->
  (area_x small + area_width small <= area_x big + area_width big)%Q ->
  (area_y big <= area_y small)%Q ->
  (area_y small + area_height small <= area_y big + area_height big)%Q ->
  overlaps (runBox host run) (rectBox small) = true ->
  overlaps (runBox host run) (rectBox big) = true.
Proof.
  intros Hl Hr Hb Ht. unfold overlaps.
  rewrite !andb_true_iff, !gt_true_iff, !lt_true_iff.
  cbn [rectBox box_left box_right box_bottom box_top].
  intros (((H1 & H2) & H3) & H4). repeat split; lra.
Qed.

(** X25.  Enlarging the selection never loses text.  When the rectangle of
    [big] contains the rectangle of [small]: every item the loop body of
    [extractTextFromArea] appends for [small] it appends for [big], whatever
    has been accumulated; so the text accumulated over a run list for [big]
    contains, followed by a space, the string of every listed run appended for
    [small], and is at least as long as the text accumulated for [small]. *)
Theorem larger_rectangle_matches_more :
  forall (host : Host) (small big : TextArea),
    (area_x big <= area_x small)%Q ->
    (area_x small + area_width small <= area_x big + area_width big)%Q ->
    (area_y big <= area_y small)%Q ->
    (area_y small + area_height small <= area_y big + area_height big)%Q ->
    (forall (extractedText extractedText' : string) (item : TextItem),
        forEachItem host small extractedText item <> extractedText ->
        forEachItem host big extractedText' item = extractedText' ++ (str item ++ " ")) /\
    (forall (runs : list TextItem) (item : TextItem),
        In item runs ->
        forEachItem host small "" item <> "" ->
        exists before after,
          fold_left (forEachItem host big) runs ""
          = before ++ (str item ++ " ") ++ after) /\
    (forall runs : list TextItem,
        (String.length (fold_left (forEachItem host small) runs "")
         <= String.length (fold_left (forEachItem host big) runs ""))%nat).
Proof.
  intros host small big Hl Hr Hb Ht.
  assert (Hitem : forall (acc acc' : string) (item : TextItem),
             forEachItem host small acc item <> acc ->
             forEachItem host big acc' item = acc' ++ (str item ++ " ")).
  { intros acc acc' item. rewrite !forEachItem_overlaps.
    destruct (overlaps (runBox host item) (rectBox small)) eqn:Hs; [|congruence].
    intros _. now rewrite (overlaps_contained host small big item Hl Hr Hb Ht Hs). }
  split; [exact Hitem|]. split.
  - intros runs item Hin Happ.
    assert (Hbig : In item (matchedRuns host big runs)).
    { unfold matchedRuns. apply filter_In. split; [exact Hin|].
      rewrite forEachItem_overlaps in Happ.
      destruct (overlaps (runBox host item) (rectBox small)) eqn:Hs; [|congruence].
      exact (overlaps_contained host small big item Hl Hr Hb Ht Hs). }
    apply in_split in Hbig. destruct Hbig as (l1 & l2 & Hsplit).
    rewrite forEach_accumulates, Hsplit, map_app, trailing_spaces_app.
    cbn [map fold_right append].
    exists (fold_right (fun s acc => s ++ " " ++ acc) "" (map str l1)),
           (fold_right (fun s acc => s ++ " " ++ acc) "" (map str l2)).
    rewrite !append_assoc. reflexivity.
  - intros runs. rewrite !forEach_accumulates. cbn [append].
    unfold matchedRuns.
    induction runs as [|run runs IH]; [apply Nat.le_refl|].
    cbn [filter].
    destruct (overlaps (runBox host run) (rectBox small)) eqn:Hs.
    + rewrite (overlaps_contained host small big run Hl Hr Hb Ht Hs).
      cbn [map fold_right]. rewrite !length_append. cbn [String.length]. lia.
    + destruct (overlaps (runBox host run) (rectBox big)); [|exact IH].
      cbn [map fold_right]. rewrite !length_append. cbn [String.length]. lia.
Qed.

(** On the sample page, the text accumulated for the whole page is at least as
    long as the text accumulated for a small rectangle on the first run. *)
Lemma larger_rectangle_matches_more_witness :
  (String.length
     (fold_left (forEachItem Sample.host (mkTextArea 110%Q 695%Q 10%Q 10%Q 1%Z))
                [Sample.hello; Sample.world; Sample.footer] "")
   <= String.length
        (fold_left (forEachItem Sample.host (mkTextArea 0%Q 0%Q 612%Q 792%Q 1%Z))
                   [Sample.hello; Sample.world; Sample.footer] ""))%nat.
Proof.
  destruct (@larger_rectangle_matches_more Sample.host
              (mkTextArea 110 695 10 10 1) (mkTextArea 0 0 612 792 1))
    as (_ & _ & Hlen).
  - vm_compute. discriminate.
  - vm_compute. discriminate.
  - vm_compute. discriminate.
  - vm_compute. discriminate.
  - exact (Hlen [Sample.hello; Sample.world; Sample.footer]).
Defined.

End Matcher_more.
